(** * Monzo transaction report: a shallow embedding of [app/monzo_transactions.py]

    The program fetches transactions, buckets the debits by category
    ([categorize_transactions]), lays the buckets out as a rectangular grid
    with per-category subtotals and a grand total ([save_to_excel]) and
    writes a spreadsheet ([main] sequences the stages).

    Conventions of the embedding:
    - a Python [int] is a [Z]; a Python [float] is an IEEE-754 binary64 value,
      [spec_float] with precision 53 and maximal exponent 1024, computed with
      the operations of the standard library's [SpecFloat];
    - a Python [str] is a [string]; every character of the texts handled here
      (category tags, descriptions) is taken in the ASCII range, one [ascii]
      per character; the two non-ASCII signs of the source's literals (the
      pound sign and the summation sign) stand as their UTF-8 bytes;
    - a raised exception is the [Raise] outcome of the [result] monad;
    - a [dict] is an association list in insertion order;
    - printing, the spreadsheet file and the viewer are events of a trace. *)

From Stdlib Require Import ZArith String Ascii Bool List Lia Permutation.
From Stdlib Require Import Floats.SpecFloat DecimalString.
Import ListNotations.

Local Open Scope string_scope.
Local Open Scope list_scope.
Local Open Scope Z_scope.

(** Concatenation of texts, Python's [+] on [str]. *)
Infix "+++" := String.append (right associativity, at level 60).

(** ** Exceptions and the result monad *)

Inductive exn : Type :=
| KeyError (key : string)      (* a dict lookup that misses *)
| OverflowError                (* int too large to convert to float *)
| ValueError.                  (* max() of an empty sequence, row of the wrong length *)

Inductive result (A : Type) : Type :=
| Ok (a : A)
| Raise (e : exn).

Arguments Ok {A} a.
Arguments Raise {A} e.

Definition bind {A B : Type} (r : result A) (k : A -> result B) : result B :=
  match r with
  | Ok a => k a
  | Raise e => Raise e
  end.

Notation "x <- c1 ;; c2" := (bind c1 (fun x => c2))
  (at level 61, c1 at next level, right associativity).

(** A [for] loop whose body may raise: the accumulator is threaded through
    the elements in order and the first exception ends the loop. *)
Fixpoint for_each {A S : Type} (body : S -> A -> result S) (l : list A) (s : S)
  : result S :=
  match l with
  | [] => Ok s
  | x :: l' => s' <- body s x ;; for_each body l' s'
  end.

(** ** Python floats: IEEE-754 binary64 *)

Module PyFloat.

Definition prec : Z := 53.
Definition emax : Z := 1024.

Definition float : Type := spec_float.

(** [0.0], also what the int [0] becomes when a float is added to it. *)
Definition zero : float := S754_zero false.

(** [float(n)] for an int [n]: rounded to nearest, ties to even;
    Python raises [OverflowError] when the int is out of range. *)
Definition of_int (n : Z) : result float :=
  match binary_normalize prec emax n 0 false with
  | S754_infinity _ => Raise OverflowError
  | x => Ok x
  end.

(** The literal [100.0]. *)
Definition hundred : float := S754_finite false 7036874417766400 (-46).

Definition add (x y : float) : float := SFadd prec emax x y.
Definition div (x y : float) : float := SFdiv prec emax x y.
Definition neg (x : float) : float := SFopp x.
Definition ltb (x y : float) : bool := SFltb x y.

(** [n / 100.0] for an int [n]: the int is converted first. *)
Definition int_div_hundred (n : Z) : result float :=
  x <- of_int n ;; Ok (div x hundred).

(** *** Formatting with the [:.2f] specification

    The exact binary value is rounded to two decimals, ties to even, and
    printed in fixed notation; the sign is the sign bit. *)

Definition string_of_Z (n : Z) : string :=
  NilZero.string_of_int (Z.to_int n).

Definition round_half_even_div (num den : Z) : Z :=
  let q := num / den in
  let r := num mod den in
  match 2 * r ?= den with
  | Lt => q
  | Gt => q + 1
  | Eq => if Z.even q then q else q + 1
  end.

(** The magnitude [m * 2^e] in hundredths, rounded. *)
Definition hundredths (m : positive) (e : Z) : Z :=
  match e with
  | Zneg k => round_half_even_div (Zpos m * 100) (2 ^ Zpos k)
  | _ => Zpos m * 100 * 2 ^ e
  end.

Definition two_digits (n : Z) : string :=
  if n <? 10 then "0" +++ string_of_Z n else string_of_Z n.

Definition fixed2 (h : Z) : string :=
  string_of_Z (h / 100) +++ "." +++ two_digits (h mod 100).

Definition sign_text (s : bool) : string := if s then "-" else "".

Definition format_2f (x : float) : string :=
  match x with
  | S754_nan => "nan"
  | S754_infinity s => sign_text s +++ "inf"
  | S754_zero s => sign_text s +++ "0.00"
  | S754_finite s m e => sign_text s +++ fixed2 (hundredths m e)
  end.

(** The value of a float in hundredths, rounded as [format_2f] shows it;
    [0] when the float is no finite number. *)
Definition cents (x : float) : Z :=
  match x with
  | S754_finite _ m e => hundredths m e
  | _ => 0
  end.

End PyFloat.

(** ** Python strings (ASCII range) *)

Module PyStr.

Definition is_lower (c : ascii) : bool :=
  let n := N_of_ascii c in ((97 <=? n) && (n <=? 122))%N.

Definition is_upper (c : ascii) : bool :=
  let n := N_of_ascii c in ((65 <=? n) && (n <=? 90))%N.

Definition to_upper (c : ascii) : ascii :=
  if is_lower c then ascii_of_N (N_of_ascii c - 32) else c.

Definition to_lower (c : ascii) : ascii :=
  if is_upper c then ascii_of_N (N_of_ascii c + 32) else c.

Fixpoint map_chars (f : ascii -> ascii) (s : string) : string :=
  match s with
  | EmptyString => EmptyString
  | String c s' => String (f c) (map_chars f s')
  end.

(** [s.replace(old, new)] where [old] and [new] are single characters. *)
Definition replace (old new : ascii) (s : string) : string :=
  map_chars (fun c => if Ascii.eqb c old then new else c) s.

(** [s.title()]: a letter that follows a letter is lowered, a letter that
    starts a word is raised, any other character ends the word. *)
Fixpoint title_from (previous_is_cased : bool) (s : string) : string :=
  match s with
  | EmptyString => EmptyString
  | String c s' =>
      if is_lower c then
        String (if previous_is_cased then c else to_upper c) (title_from true s')
      else if is_upper c then
        String (if previous_is_cased then to_lower c else c) (title_from true s')
      else String c (title_from false s')
  end.

Definition title (s : string) : string := title_from false s.

(** [s.capitalize()]: first character raised, the others lowered. *)
Definition capitalize (s : string) : string :=
  match s with
  | EmptyString => EmptyString
  | String c s' => String (to_upper c) (map_chars to_lower s')
  end.

(** The slice [s[:n]]: the first [n] characters, or all of [s] when it is
    shorter. *)
Fixpoint slice_to (n : nat) (s : string) : string :=
  match n, s with
  | S n', String c s' => String c (slice_to n' s')
  | _, _ => EmptyString
  end.

End PyStr.

(** ** Python dicts: association lists in insertion order *)

Definition dict (V : Type) : Type := list (string * V).

(** [d[k] = v]: an existing key keeps its position, a new key goes last. *)
Fixpoint dict_set {V : Type} (k : string) (v : V) (d : dict V) : dict V :=
  match d with
  | [] => [(k, v)]
  | (k', v') :: d' =>
      if String.eqb k' k then (k', v) :: d' else (k', v') :: dict_set k v d'
  end.

(** [d[k]]: raises [KeyError] when the key is missing. *)
Fixpoint dict_get {V : Type} (k : string) (d : dict V) : result V :=
  match d with
  | [] => Raise (KeyError k)
  | (k', v) :: d' => if String.eqb k' k then Ok v else dict_get k d'
  end.

(** [d.get(k, default)] *)
Definition dict_get_default {V : Type} (k : string) (default : V) (d : dict V) : V :=
  match dict_get k d with
  | Ok v => v
  | Raise _ => default
  end.

(** [list(d.keys())] *)
Definition dict_keys {V : Type} (d : dict V) : list string := map fst d.

(** ** Data model *)

(** A raw transaction of the API response: [amount] in minor units,
    [description] and [category] read with [.get], so possibly absent. *)
Record Transaction : Type := {
  tx_amount : Z;
  tx_description : option string;
  tx_category : option string
}.

(** An entry of a bucket: the dict [{'description': ..., 'amount': ...}]. *)
Record Expense : Type := {
  ex_description : string;
  ex_amount : PyFloat.float
}.

Definition buckets : Type := dict (list Expense).

(** [opt.get(key, default)] on a field that may be absent. *)
Definition get_or {A : Type} (field : option A) (default : A) : A :=
  match field with
  | Some a => a
  | None => default
  end.

(** ** Step 3: [categorize_transactions] *)

Definition all_categories : list string :=
  ["eating_out"; "groceries"; "bills"; "shopping"; "entertainment";
   "transport"; "uncategorized"].

(** [category.replace('_', ' ').title()] *)
Definition format_category (category : string) : string :=
  PyStr.title (PyStr.replace "_" " " category).

(** The first loop: every tracked category starts with an empty list. *)
Definition init_categories : buckets :=
  fold_left
    (fun categories category => dict_set (format_category category) [] categories)
    all_categories [].

(** The test [amount < 0] of the loop body. *)
Definition is_expense (amount : PyFloat.float) : bool :=
  PyFloat.ltb amount PyFloat.zero.

(** The entry appended for a debit. *)
Definition expense_of (transaction : Transaction) (amount : PyFloat.float) : Expense :=
  {| ex_description :=
       PyStr.slice_to 18 (get_or (tx_description transaction) "No description");
     ex_amount := PyFloat.neg amount |}.

(** [transaction.get('category', 'uncategorized').replace('_', ' ').title()] *)
Definition category_of (transaction : Transaction) : string :=
  format_category (get_or (tx_category transaction) "uncategorized").

(** The body of the second loop, on the dict built so far. The call
    [categories[category].append(...)] looks the list up, which raises
    [KeyError] on a missing key, and extends that list in place: the dict
    then shows the longer list under the same key. *)
Definition categorize_one (categories : buckets) (transaction : Transaction)
  : result buckets :=
  amount <- PyFloat.int_div_hundred (tx_amount transaction) ;;
  let category := category_of transaction in
  if is_expense amount then
    bucket <- dict_get category categories ;;
    Ok (dict_set category (bucket ++ [expense_of transaction amount]) categories)
  else Ok categories.

Definition categorize_transactions (transactions : list Transaction) : result buckets :=
  for_each categorize_one transactions init_categories.

(** *** The second loop as a transition system

    One transition per iteration: the loop either ends, skips a transaction
    that is no expense, appends an entry to a bucket, or stops on an
    exception. *)







(** ** Step 4: [save_to_excel], the report grid *)

(** A cell of the sheet: a text, or a float as stored in a bucket. *)
Inductive cell : Type :=
| Text (s : string)
| Number (x : PyFloat.float).

(** The dict [{'Description': descriptions, 'Amount': amounts}] of a category. *)
Record column_data : Type := {
  Description : list string;
  Amount : list cell
}.

(** A [DataFrame]: its column names and its rows under their index labels,
    in insertion order. *)
Record DataFrame : Type := {
  df_columns : list string;
  df_rows : list (nat * list cell)
}.

(** The inner loop over a bucket: both lists grow by one entry per Expense
    and [total_for_category] accumulates the amounts from [0]. *)
Definition collect_entry (acc : list string * list cell * PyFloat.float)
  (transaction : Expense) : list string * list cell * PyFloat.float :=
  let '(descriptions, amounts, total_for_category) := acc in
  (descriptions ++ [ex_description transaction],
   amounts ++ [Number (ex_amount transaction)],
   PyFloat.add total_for_category (ex_amount transaction)).

(** [f'£{x:.2f}'] *)
Definition pounds (x : PyFloat.float) : string := "£" +++ PyFloat.format_2f x.

(** The body of the loop over [category_names]: the category's entries, then
    its subtotal entry; the subtotal is added to [total_expenditure]. *)
Definition collect_category (categories : buckets)
  (acc : list column_data * PyFloat.float) (category : string)
  : result (list column_data * PyFloat.float) :=
  let '(all_data, total_expenditure) := acc in
  bucket <- dict_get category categories ;;
  let '(descriptions, amounts, total_for_category) :=
    fold_left collect_entry bucket ([], [], PyFloat.zero) in
  Ok (all_data ++
        [{| Description := descriptions ++ ["∑ " +++ category];
            Amount := amounts ++ [Text (pounds total_for_category)] |}],
      PyFloat.add total_expenditure total_for_category).

(** The two header cells of every category. *)
Definition all_columns (category_names : list string) : list string :=
  flat_map (fun category => [category; "£ " +++ category]) category_names.

(** [max(l)] on a list of lengths: [ValueError] on the empty list. *)
Definition py_max (l : list nat) : result nat :=
  match l with
  | [] => Raise ValueError
  | n :: l' => Ok (fold_left Nat.max l' n)
  end.

(** [l[i] if i < len(l) else ''] *)
Definition entry_or_blank {A : Type} (as_cell : A -> cell) (l : list A) (i : nat) : cell :=
  match nth_error l i with
  | Some a => as_cell a
  | None => Text ""
  end.

(** Row [i] of the grid: two cells per category, then blanks up to the
    number of columns. *)
Definition grid_row (all_data : list column_data) (width : nat) (i : nat) : list cell :=
  let row :=
    flat_map
      (fun category_data =>
         [entry_or_blank Text (Description category_data) i;
          entry_or_blank (fun c => c) (Amount category_data) i])
      all_data in
  row ++ repeat (Text "") (width - length row).

(** [df.loc[i] = row]: the row must have one cell per column; a label
    already present is overwritten, a new label adds a row. *)
Fixpoint set_row (i : nat) (row : list cell) (rows : list (nat * list cell))
  : list (nat * list cell) :=
  match rows with
  | [] => [(i, row)]
  | (j, r) :: rows' =>
      if Nat.eqb j i then (j, row) :: rows' else (j, r) :: set_row i row rows'
  end.

Definition loc_set (df : DataFrame) (i : nat) (row : list cell) : result DataFrame :=
  if Nat.eqb (length row) (length (df_columns df)) then
    Ok {| df_columns := df_columns df; df_rows := set_row i row (df_rows df) |}
  else Raise ValueError.

(** The last row: label, grand total, blanks. *)
Definition total_row (total_expenditure : PyFloat.float) (width : nat) : list cell :=
  [Text "Total Expenditure"; Text (pounds total_expenditure)]
    ++ repeat (Text "") (width - 2).

(** The Report Builder: everything [save_to_excel] computes before it
    touches the file system. *)
Definition build_report (categories : buckets) : result DataFrame :=
  let category_names := dict_keys categories in
  acc <- for_each (collect_category categories) category_names ([], PyFloat.zero) ;;
  let '(all_data, total_expenditure) := acc in
  let columns := all_columns category_names in
  let df := {| df_columns := columns; df_rows := [] |} in
  max_rows <- py_max (map (fun category_data => length (Description category_data)) all_data) ;;
  df <- for_each
          (fun df i => loc_set df i (grid_row all_data (length columns) i))
          (seq 0 max_rows) df ;;
  loc_set df max_rows (total_row total_expenditure (length columns)).

(** ** Effects: console, HTTP, files *)

(** What a run does to the outside, in order. *)
Inductive event : Type :=
| EvPrint (line : string)                                  (* print(line) *)
| EvToExcel (filename sheet_name : string) (df : DataFrame) (* df.to_excel, index=False *)
| EvSaveWorkbook (filename : string) (widths : list PyFloat.float)
                                                           (* workbook.save, column widths set *)
| EvSystem (command : string)                              (* os.system(command) *)
| EvStartFile (filepath : string).                         (* os.startfile(filepath) *)

(** An HTTP response: its status, its JSON body as the dict the program
    reads, and the text Python shows for that body. *)
Record Response : Type := {
  status_code : Z;
  json : dict (list Transaction);
  json_repr : string
}.

(** What the program reads from the outside: the answer to a [GET] on a
    URL, the account identifier of the environment and [os.name]. *)
Record World : Type := {
  http_get : string -> Response;
  MONZO_ACCOUNT_ID : string;
  os_name : string
}.

(** A computation that prints, writes and may raise: its trace and its
    outcome. An exception keeps the trace produced before it. *)
Definition io (A : Type) : Type := list event * result A.

Definition io_ret {A : Type} (a : A) : io A := ([], Ok a).

Definition io_bind {A B : Type} (m : io A) (k : A -> io B) : io B :=
  match m with
  | (out, Ok a) => let '(out', r) := k a in (out ++ out', r)
  | (out, Raise e) => (out, Raise e)
  end.

Definition emit (ev : event) : io unit := ([ev], Ok tt).

Definition lift {A : Type} (r : result A) : io A := ([], r).

Notation "x <~ c1 ;; c2" := (io_bind c1 (fun x => c2))
  (at level 61, c1 at next level, right associativity).
Notation "c1 ;;; c2" := (io_bind c1 (fun _ => c2))
  (at level 61, right associativity).

Fixpoint io_for_each {A : Type} (body : A -> io unit) (l : list A) : io unit :=
  match l with
  | [] => io_ret tt
  | x :: l' => body x ;;; io_for_each body l'
  end.

Definition MONZO_API_URL : string := "https://api.monzo.com/transactions".

(** ** Step 1: [test_authentication] *)
Definition test_authentication (w : World) : io unit :=
  let response := http_get w "https://api.monzo.com/ping/whoami" in
  if status_code response =? 200 then
    emit (EvPrint "Authentication successful.")
  else
    emit (EvPrint ("Authentication failed with status code: "
                     +++ PyFloat.string_of_Z (status_code response)
                     +++ ", response: " +++ json_repr response)).

(** ** Step 2: [fetch_transactions] *)
Definition fetch_transactions (w : World) (account_id : string) : io (list Transaction) :=
  let response := http_get w MONZO_API_URL in
  if status_code response =? 200 then
    let data := json response in
    io_ret (dict_get_default "transactions" [] data)
  else
    emit (EvPrint ("Error fetching transactions: "
                     +++ PyFloat.string_of_Z (status_code response))) ;;;
    io_ret [].

(** ** The exporter half of [save_to_excel], and [open_file] *)

(** [140 / 7], the width given to every column. *)
Definition column_width : PyFloat.float := S754_finite false 5629499534213120 (-48).

Definition open_file (w : World) (filepath : string) : io unit :=
  if String.eqb (os_name w) "posix" then emit (EvSystem ("open " +++ filepath))
  else if String.eqb (os_name w) "nt" then emit (EvStartFile filepath)
  else emit (EvPrint "Unable to open the file. Please open it manually.").

Definition save_to_excel (w : World) (categories : buckets) : io unit :=
  df <~ lift (build_report categories) ;;
  let excel_filename := "monzo_transactions.xlsx" in
  emit (EvToExcel excel_filename "Transactions" df) ;;;
  emit (EvSaveWorkbook excel_filename (map (fun _ => column_width) (df_columns df))) ;;;
  emit (EvPrint "Results saved to 'monzo_transactions.xlsx'.") ;;;
  open_file w excel_filename.

(** ** Step 5: [main] *)

Section Orchestrator.

(** The builtin [sum] on the amounts of a bucket; its rounding differs
    between interpreter versions, so it is left open here. *)
Variable builtin_sum : list PyFloat.float -> PyFloat.float.

Definition newline : string := String (ascii_of_nat 10) EmptyString.

Definition print_category_total (entry : string * list Expense) : io unit :=
  let '(category, transactions) := entry in
  let category_total := builtin_sum (map ex_amount transactions) in
  emit (EvPrint (PyStr.capitalize category +++ ": " +++ pounds category_total)).

Definition main (w : World) : io unit :=
  test_authentication w ;;;
  transactions <~ fetch_transactions w (MONZO_ACCOUNT_ID w) ;;
  match transactions with
  | _ :: _ =>
      categories <~ lift (categorize_transactions transactions) ;;
      emit (EvPrint (newline +++ "Total Expenditure by Category (Current Month):")) ;;;
      io_for_each print_category_total categories ;;;
      save_to_excel w categories
  | [] => emit (EvPrint "No transactions found.")
  end.

End Orchestrator.

(** ** Notions used in the statements *)

(** The display names of the buckets, in enumeration order. *)
Definition bucket_names : list string := map format_category all_categories.

(** A debit: a transaction whose [amount] field is negative. *)
Definition is_debit (transaction : Transaction) : bool := tx_amount transaction <? 0.

(** The float [-(n / 100.0)], the amount stored for a debit of [n] minor
    units. *)
Definition magnitude (n : Z) : PyFloat.float :=
  PyFloat.neg
    (PyFloat.div (binary_normalize PyFloat.prec PyFloat.emax n 0 false) PyFloat.hundred).


(** The entries that the transactions of an input put in the bucket [name],
    in input order. *)
Definition entries_for (name : string) (transactions : list Transaction) : list Expense :=
  flat_map
    (fun t =>
       match PyFloat.int_div_hundred (tx_amount t) with
       | Ok amount =>
           if is_expense amount && String.eqb (category_of t) name
           then [expense_of t amount] else []
       | Raise _ => []
       end)
    transactions.


(** The sum of a bucket's amounts, added in order from [0]. *)
Definition bucket_total (bucket : list Expense) : PyFloat.float :=
  fold_left (fun total e => PyFloat.add total (ex_amount e)) bucket PyFloat.zero.

(** The sum of the bucket totals, added in bucket order from [0]. *)
Definition grand_total (categories : buckets) : PyFloat.float :=
  fold_left (fun total entry => PyFloat.add total (bucket_total (snd entry)))
    categories PyFloat.zero.

(** The column of a category: its entries, then its subtotal entry. *)
Definition category_column (name : string) (bucket : list Expense) : column_data :=
  {| Description := map ex_description bucket ++ ["∑ " +++ name];
     Amount := map (fun e => Number (ex_amount e)) bucket
                 ++ [Text (pounds (bucket_total bucket))] |}.

(** The columns of a whole dict, in key order. *)
Definition columns_of (categories : buckets) : list column_data :=
  map (fun entry => category_column (fst entry) (snd entry)) categories.



(** A whole number of minor units written in major units with two
    decimals: the exact quotient by 100. *)
Definition major_units_text (minor : Z) : string := PyFloat.fixed2 minor.

(** The longest column of the report: the entries of a bucket and its
    subtotal entry. *)
Definition max_category_length (categories : buckets) : nat :=
  fold_right (fun entry n => Nat.max (S (length (snd entry))) n) 0%nat categories.

(** Events that write no file and launch no viewer. *)
Definition is_print (ev : event) : bool :=
  match ev with
  | EvPrint _ => true
  | _ => false
  end.

(** *** Sample inputs *)



(** A debit whose category is not tracked. *)
Definition holiday_debit : Transaction :=
  {| tx_amount := -500; tx_description := Some "Hotel"; tx_category := Some "holidays" |}.

(** A credit too large for a float. *)
Definition huge_credit : Transaction :=
  {| tx_amount := 2 ^ 1024; tx_description := Some "Refund"; tx_category := Some "income" |}.

(** A month with two debits of one category and a credit; the second
    description is longer than 18 characters. *)
Definition coffee_and_tea : list Transaction :=
  [ {| tx_amount := -500; tx_description := Some "Coffee Shop";
       tx_category := Some "eating_out" |};
    {| tx_amount := 1200; tx_description := Some "Salary"; tx_category := Some "income" |};
    {| tx_amount := -250; tx_description := Some "Tea at the station kiosk";
       tx_category := Some "eating_out" |} ].

(** Responses of the API: a refusal, a body without the field, a body with
    transactions; a world that answers every request with one response. *)
Definition failing_response : Response :=
  {| status_code := 401; json := []; json_repr := "{'code': 'unauthorized'}" |}.

Definition empty_response : Response :=
  {| status_code := 200; json := [("account", [])]; json_repr := "{'account': []}" |}.

Definition full_response : Response :=
  {| status_code := 200; json := [("transactions", coffee_and_tea)];
     json_repr := "{'transactions': [...]}" |}.

Definition world_of (response : Response) : World :=
  {| http_get := fun _ => response; MONZO_ACCOUNT_ID := "acc_0000"; os_name := "posix" |}.

(** Left-to-right summation, one possible [sum]. *)
Definition plain_sum (amounts : list PyFloat.float) : PyFloat.float :=
  fold_left PyFloat.add amounts PyFloat.zero.

(** [sign_is sx x]: the sign bit of [x] is [sx], or [x] is a NaN. *)
Definition sign_is (sx : bool) (x : PyFloat.float) : Prop :=
  match x with
  | S754_zero s | S754_infinity s | S754_finite s _ _ => s = sx
  | S754_nan => True
  end.

(** ** Notions used in the further properties *)

(** The entry stored for a debit, as a function of the transaction alone. *)
Definition stored_expense (t : Transaction) : Expense :=
  {| ex_description :=
       PyStr.slice_to 18 (get_or (tx_description t) "No description");
     ex_amount := magnitude (tx_amount t) |}.

(** The transactions that the bucket [name] receives. *)
Definition goes_to (name : string) (t : Transaction) : bool :=
  is_debit t && String.eqb (category_of t) name.

(** An int that converts to a float. *)
Definition converts (n : Z) : bool :=
  match PyFloat.of_int n with
  | Ok _ => true
  | Raise _ => false
  end.

(** A transaction that the loop gets past: its amount converts and, when it
    is a debit, its category is one of the bucket names. *)
Definition passes (t : Transaction) : bool :=
  converts (tx_amount t)
  && (negb (is_debit t) || existsb (String.eqb (category_of t)) bucket_names).

(** Bucket by bucket, the entries of [later] after those of [earlier]. *)
Definition merge_buckets (earlier later : buckets) : buckets :=
  map (fun entry => (fst entry, snd entry ++ dict_get_default (fst entry) [] later))
      earlier.

(** The characters of [format_category]: letters, the image of a character
    under [title] given whether a letter comes before it, and the exchange
    of the separator. *)
Definition is_cased (c : ascii) : bool := PyStr.is_lower c || PyStr.is_upper c.

Definition title_char (previous_is_cased : bool) (c : ascii) : ascii :=
  if PyStr.is_lower c then (if previous_is_cased then c else PyStr.to_upper c)
  else if PyStr.is_upper c then (if previous_is_cased then PyStr.to_lower c else c)
  else c.

Definition underscore_to_space (c : ascii) : ascii :=
  if Ascii.eqb c "_" then " "%char else c.

(** The two cells of a category in row [i]: entry [i] of the bucket, the
    subtotal right after the last entry, blanks below. *)
Definition category_cells (name : string) (bucket : list Expense) (i : nat) : cell * cell :=
  match nth_error bucket i with
  | Some e => (Text (ex_description e), Number (ex_amount e))
  | None =>
      if Nat.eqb i (length bucket)
      then (Text ("∑ " +++ name), Text ("£" +++ PyFloat.format_2f (bucket_total bucket)))
      else (Text "", Text "")
  end.

(** A float that can be a sum of money: zero, a positive number or
    [+inf]; no negative number, no negative zero, no NaN. *)
Definition is_nonnegative (x : PyFloat.float) : bool :=
  match x with
  | S754_zero false | S754_finite false _ _ | S754_infinity false => true
  | _ => false
  end.



(** *** Further sample inputs *)

(** A dict of two buckets, one of them empty. *)
Definition two_buckets : buckets :=
  [("Bills", [stored_expense holiday_debit]); ("Transport", [])].




(** * Facts *)

(** ** Binary64 arithmetic: signs and range

    Three facts about rounding are needed: the sign of [n / 100.0] is the
    sign of [n]; an int below [2^1023] in absolute value converts to a
    float; and for an int [n] below [2^52] in absolute value the float
    [n / 100.0], rounded to two decimals, is [n] hundredths again. *)

Module PyFloatFacts.
Import PyFloat.

Lemma digits2_pos_size (p : positive) : digits2_pos p = Pos.size p.
Proof. induction p; simpl; congruence. Qed.

Lemma Zdigits2_log2 (m : Z) : 0 < m -> Zdigits2 m = Z.log2 m + 1.
Proof.
  destruct m as [|p|p]; try lia. intros _. simpl.
  rewrite digits2_pos_size. destruct p; simpl; lia.
Qed.

Lemma shr_1_m (mrs : shr_record) :
  0 <= shr_m mrs -> shr_m (shr_1 mrs) = shr_m mrs / 2.
Proof.
  destruct mrs as [m r s]. simpl. intros Hm.
  destruct m as [|p|p]; try lia.
  - reflexivity.
  - destruct p; simpl shr_m.
    + rewrite Pos2Z.inj_xI. apply Z.div_unique with 1; lia.
    + rewrite Pos2Z.inj_xO. apply Z.div_unique with 0; lia.
    + reflexivity.
Qed.

Lemma pow2_xO (n : positive) : 2 ^ Z.pos n~0 = 2 ^ Z.pos n * 2 ^ Z.pos n.
Proof. rewrite <- Z.pow_add_r by lia. f_equal. lia. Qed.

Lemma pow2_xI (n : positive) : 2 ^ Z.pos n~1 = 2 * (2 ^ Z.pos n * 2 ^ Z.pos n).
Proof.
  rewrite <- Z.pow_add_r by lia.
  replace (Z.pos n~1) with (1 + (Z.pos n + Z.pos n)) by lia.
  rewrite Z.pow_add_r by lia. reflexivity.
Qed.

Lemma shr_1_nonneg (mrs : shr_record) : 0 <= shr_m mrs -> 0 <= shr_m (shr_1 mrs).
Proof. intros H. rewrite shr_1_m by assumption. apply Z.div_pos; lia. Qed.

Lemma iter_shr_m (n : positive) : forall mrs,
  0 <= shr_m mrs -> shr_m (iter_pos shr_1 n mrs) = shr_m mrs / 2 ^ Zpos n.
Proof.
  induction n as [n IH|n IH|]; intros mrs Hm; simpl iter_pos.
  - assert (H1 : 0 <= shr_m (shr_1 mrs)) by auto using shr_1_nonneg.
    assert (H2 : 0 <= shr_m (iter_pos shr_1 n (shr_1 mrs))).
    { rewrite IH by assumption. apply Z.div_pos; lia. }
    rewrite IH, IH, shr_1_m by assumption.
    rewrite !Z.div_div by lia. rewrite pow2_xI. f_equal; lia.
  - assert (H2 : 0 <= shr_m (iter_pos shr_1 n mrs)).
    { rewrite IH by assumption. apply Z.div_pos; lia. }
    rewrite IH, IH by assumption.
    rewrite !Z.div_div by lia. rewrite pow2_xO. reflexivity.
  - apply shr_1_m; assumption.
Qed.

(** The sign of a rounded result is the sign asked for. *)
Lemma binary_round_aux_sign (sx : bool) (mx ex : Z) (lx : location) :
  sign_is sx (binary_round_aux prec emax sx mx ex lx).
Proof.
  unfold binary_round_aux.
  destruct (shr_fexp prec emax mx ex lx) as [mrs' e'].
  destruct (shr_fexp prec emax _ e' loc_Exact) as [mrs'' e''].
  destruct (shr_m mrs''); [reflexivity| |exact I].
  destruct (e'' <=? emax - prec); reflexivity.
Qed.

Lemma shr_fexp_pos (m e : Z) (l : location) :
  0 < m -> emin prec emax <= e ->
  0 < shr_m (fst (shr_fexp prec emax m e l)) /\ e <= snd (shr_fexp prec emax m e l).
Proof.
  intros Hm He. unfold shr_fexp, shr.
  assert (Hrec : shr_m (shr_record_of_loc m l) = m) by (destruct l as [|[]]; reflexivity).
  rewrite (Zdigits2_log2 m Hm).
  unfold fexp, emin, prec, emax in *.
  destruct (Z.max (Z.log2 m + 1 + e - 53) (3 - 1024 - 53) - e) as [|n|n] eqn:En;
    simpl fst; simpl snd; rewrite ?Hrec; try lia.
  rewrite iter_shr_m by lia. rewrite Hrec. split; [|lia].
  assert (Hn : Z.pos n <= Z.log2 m) by lia.
  assert (Hp : 2 ^ Z.pos n <= m).
  { transitivity (2 ^ Z.log2 m).
    - apply Z.pow_le_mono_r; lia.
    - apply Z.log2_spec; lia. }
  apply Z.div_str_pos. lia.
Qed.

Lemma round_nearest_even_ge (m : Z) (l : location) : m <= round_nearest_even m l.
Proof. destruct l as [|[]]; simpl; try lia. destruct (Z.even m); lia. Qed.

(** Rounding a positive mantissa whose exponent is not below [emin] never
    gives zero or a NaN. *)
Lemma binary_round_aux_pos (sx : bool) (mx ex : Z) (lx : location) :
  0 < mx -> emin prec emax <= ex ->
  (exists m e, binary_round_aux prec emax sx mx ex lx = S754_finite sx m e /\ ex <= e)
  \/ binary_round_aux prec emax sx mx ex lx = S754_infinity sx.
Proof.
  intros Hm He. unfold binary_round_aux.
  destruct (shr_fexp_pos mx ex lx Hm He) as [H1 H1e].
  destruct (shr_fexp prec emax mx ex lx) as [mrs' e']. simpl in H1, H1e.
  pose proof (round_nearest_even_ge (shr_m mrs') (loc_of_shr_record mrs')) as Hr.
  destruct (shr_fexp_pos (round_nearest_even (shr_m mrs') (loc_of_shr_record mrs')) e' loc_Exact)
    as [H2 H2e]; try lia.
  destruct (shr_fexp prec emax _ e' loc_Exact) as [mrs'' e'']. simpl in H2, H2e.
  destruct (shr_m mrs'') as [|m|m]; try lia.
  destruct (e'' <=? emax - prec); [left|right; reflexivity].
  exists m, e''. split; [reflexivity|lia].
Qed.

(** *** The sign of [n / 100.0] *)

Lemma of_int_nonneg (n : Z) (x : float) :
  0 <= n -> of_int n = Ok x -> sign_is false x.
Proof.
  unfold of_int. intros Hn.
  destruct n as [|p|p]; try lia; simpl binary_normalize.
  - intros H. injection H as <-. reflexivity.
  - unfold binary_round.
    destruct (shl_align p 0 _) as [mz ez].
    pose proof (binary_round_aux_sign false (Z.pos mz) ez loc_Exact) as Hs.
    destruct (binary_round_aux prec emax false (Z.pos mz) ez loc_Exact);
      intros H; try discriminate; injection H as <-; exact Hs.
Qed.

Lemma shl_align_exponent (mx : positive) (ex ex' : Z) :
  snd (shl_align mx ex ex') = Z.min ex ex'.
Proof.
  unfold shl_align. destruct (ex' - ex) eqn:E; simpl; lia.
Qed.

Lemma of_int_neg (n : Z) (x : float) :
  n < 0 -> of_int n = Ok x -> exists m e, x = S754_finite true m e /\ -52 <= e.
Proof.
  unfold of_int. intros Hn.
  destruct n as [|p|p]; try lia; simpl binary_normalize.
  unfold binary_round.
  pose proof (shl_align_exponent p 0 (fexp prec emax (Z.pos (digits2_pos p) + 0))) as Hez.
  destruct (shl_align p 0 _) as [mz ez]. simpl in Hez.
  assert (He : -52 <= ez).
  { subst ez. unfold fexp, emin, prec, emax. lia. }
  destruct (binary_round_aux_pos true (Z.pos mz) ez loc_Exact) as [(m & e & -> & Hle)| ->].
  - lia.
  - unfold emin, prec, emax. lia.
  - intros H. injection H as <-. exists m, e. split; [reflexivity|lia].
  - discriminate.
Qed.

Lemma div_core_hundred (m : positive) (e : Z) :
  -52 <= e ->
  let '(q, e', _) := SFdiv_core_binary prec emax (Z.pos m) e 7036874417766400 (-46) in
  0 < q /\ emin prec emax <= e'.
Proof.
  intros He. unfold SFdiv_core_binary.
  rewrite (Zdigits2_log2 (Z.pos m)) by lia.
  change (Zdigits2 7036874417766400) with 53.
  pose proof (Z.log2_nonneg (Z.pos m)) as Hlog.
  pose proof (Z.log2_spec (Z.pos m) ltac:(lia)) as [Hlo _].
  unfold fexp, emin, prec, emax.
  set (d := Z.log2 (Z.pos m)) in *.
  replace (Z.min (Z.max (d + 1 + e - (53 + -46) - 53) (3 - 1024 - 53)) (e - -46))
    with (Z.min (d + e - 59) (e + 46)) by lia.
  assert (Hbig : 7036874417766400 <= 2 ^ 105) by (vm_compute; discriminate).
  destruct (e - -46 - Z.min (d + e - 59) (e + 46)) as [|s|s] eqn:Es.
  - assert (Hd : 105 <= d) by lia.
    assert (Hm : 2 ^ 105 <= Z.pos m).
    { transitivity (2 ^ d); [apply Z.pow_le_mono_r; lia|exact Hlo]. }
    pose proof (Z.div_str_pos (Z.pos m) 7036874417766400 ltac:(lia)) as Hq.
    unfold Z.div in Hq.
    destruct (Z.div_eucl (Z.pos m) 7036874417766400) as [q r]. split; lia.
  - assert (Hs : d + Z.pos s = 105) by lia.
    assert (Hm : 2 ^ 105 <= Z.shiftl (Z.pos m) (Z.pos s)).
    { rewrite Z.shiftl_mul_pow2 by lia. rewrite <- Hs.
      rewrite Z.pow_add_r by lia.
      apply Z.mul_le_mono_nonneg_r; [apply Z.pow_nonneg; lia|exact Hlo]. }
    pose proof (Z.div_str_pos (Z.shiftl (Z.pos m) (Z.pos s)) 7036874417766400 ltac:(lia)) as Hq.
    unfold Z.div in Hq.
    destruct (Z.div_eucl (Z.shiftl (Z.pos m) (Z.pos s)) 7036874417766400) as [q r].
    split; lia.
  - lia.
Qed.

Lemma div_hundred_neg (m : positive) (e : Z) :
  -52 <= e -> ltb (div (S754_finite true m e) hundred) zero = true.
Proof.
  intros He. unfold div, hundred. simpl SFdiv.
  pose proof (div_core_hundred m e He) as H.
  destruct (SFdiv_core_binary prec emax (Z.pos m) e 7036874417766400 (-46))
    as [[q e'] l]. destruct H as [Hq He'].
  destruct (binary_round_aux_pos true q e' l Hq He') as [(m' & e'' & -> & _)| ->];
    reflexivity.
Qed.

Lemma div_hundred_nonneg (x : float) :
  sign_is false x -> ltb (div x hundred) zero = false.
Proof.
  unfold div, hundred. destruct x as [s|s| |s m e]; simpl; intros Hs; subst;
    try reflexivity.
  destruct (SFdiv_core_binary prec emax (Z.pos m) e 7036874417766400 (-46))
    as [[q e'] l]. simpl xorb.
  pose proof (binary_round_aux_sign false q e' l) as H.
  destruct (binary_round_aux prec emax false q e' l) as [s|s| |s m' e'']; simpl in H;
    subst; reflexivity.
Qed.

(** The loop's test [amount < 0] on [amount = n / 100.0] is the test
    [n < 0] on the int. *)
Lemma int_div_hundred_ltb_zero (n : Z) (amount : float) :
  int_div_hundred n = Ok amount -> ltb amount zero = (n <? 0).
Proof.
  unfold int_div_hundred, bind.
  destruct (of_int n) as [x|] eqn:Hx; [|discriminate].
  intros H. injection H as <-.
  destruct (Z.ltb_spec n 0) as [Hn|Hn].
  - destruct (of_int_neg n x Hn Hx) as (m & e & -> & He).
    apply div_hundred_neg; assumption.
  - apply div_hundred_nonneg. apply (of_int_nonneg n); assumption.
Qed.

(** *** Ints within the range of a float convert without overflow *)

Lemma shr_fexp_exponent (m e : Z) (l : location) :
  snd (shr_fexp prec emax m e l) = Z.max e (fexp prec emax (Zdigits2 m + e)).
Proof.
  unfold shr_fexp, shr.
  destruct (fexp prec emax (Zdigits2 m + e) - e) eqn:E; simpl; lia.
Qed.

Lemma shr_fexp_mantissa (m e : Z) (l : location) :
  0 <= m ->
  shr_m (fst (shr_fexp prec emax m e l))
  = m / 2 ^ (snd (shr_fexp prec emax m e l) - e).
Proof.
  intros Hm. unfold shr_fexp, shr.
  assert (Hrec : shr_m (shr_record_of_loc m l) = m) by (destruct l as [|[]]; reflexivity).
  destruct (fexp prec emax (Zdigits2 m + e) - e) as [|n|n] eqn:E; simpl fst; simpl snd.
  - rewrite Z.sub_diag, Z.div_1_r. exact Hrec.
  - rewrite iter_shr_m by lia. rewrite Hrec. f_equal. f_equal. lia.
  - rewrite Z.sub_diag, Z.div_1_r. exact Hrec.
Qed.

Lemma round_nearest_even_le (m : Z) (l : location) : round_nearest_even m l <= m + 1.
Proof. destruct l as [|[]]; simpl; try lia. destruct (Z.even m); lia. Qed.

Lemma binary_round_aux_in_range (sx : bool) (mx ex : Z) (lx : location) :
  0 < mx -> emin prec emax <= ex -> ex <= 971 -> Zdigits2 mx + ex <= 1023 ->
  exists m e, binary_round_aux prec emax sx mx ex lx = S754_finite sx m e.
Proof.
  intros Hm He Hex Hd.
  destruct (binary_round_aux_pos sx mx ex lx Hm He) as [(m & e & H & _)|Hinf];
    [exists m, e; exact H|].
  exfalso. revert Hinf. unfold binary_round_aux.
  pose proof (shr_fexp_exponent mx ex lx) as E1.
  pose proof (shr_fexp_mantissa mx ex lx ltac:(lia)) as M1.
  destruct (shr_fexp_pos mx ex lx Hm He) as [P1 _].
  destruct (shr_fexp prec emax mx ex lx) as [mrs' e']. simpl in E1, M1, P1.
  set (mr := round_nearest_even (shr_m mrs') (loc_of_shr_record mrs')).
  pose proof (round_nearest_even_ge (shr_m mrs') (loc_of_shr_record mrs')) as Hge.
  pose proof (round_nearest_even_le (shr_m mrs') (loc_of_shr_record mrs')) as Hle.
  fold mr in Hge, Hle.
  pose proof (shr_fexp_exponent mr e' loc_Exact) as E2.
  destruct (shr_fexp prec emax mr e' loc_Exact) as [mrs'' e'']. simpl in E2.
  rewrite (Zdigits2_log2 mx Hm) in *.
  rewrite (Zdigits2_log2 mr) in E2 by lia.
  assert (Hk : 0 <= e' - ex) by lia.
  assert (Hlog : Z.log2 (shr_m mrs') = Z.log2 mx - (e' - ex)).
  { rewrite M1. rewrite <- Z.shiftr_div_pow2 by lia.
    rewrite Z.log2_shiftr by lia.
    assert (0 < Z.shiftr mx (e' - ex)).
    { rewrite Z.shiftr_div_pow2 by lia. rewrite <- M1. exact P1. }
    assert (Hnot : ~ Z.log2 mx < e' - ex).
    { intros Hlt. pose proof (Z.shiftr_eq_0 mx (e' - ex) ltac:(lia) Hlt). lia. }
    lia. }
  assert (Hmr : Z.log2 mr <= Z.log2 (shr_m mrs') + 1).
  { transitivity (Z.log2 (Z.succ (shr_m mrs'))).
    - apply Z.log2_le_mono. lia.
    - apply Z.log2_succ_le. }
  assert (He'' : e'' <= 971).
  { unfold fexp, emin, prec, emax in *. lia. }
  destruct (shr_m mrs''); try discriminate.
  unfold emax, prec.
  destruct (Z.leb_spec e'' (1024 - 53)); [discriminate|lia].
Qed.

Lemma iter_xO_digits (k p : positive) :
  Z.pos (digits2_pos (Pos.iter xO p k)) = Z.pos (digits2_pos p) + Z.pos k.
Proof.
  induction k as [|k IH] using Pos.peano_ind.
  - simpl. lia.
  - rewrite Pos.iter_succ. simpl digits2_pos. lia.
Qed.

Lemma shl_align_digits (mx : positive) (ex ex' : Z) :
  Z.pos (digits2_pos (fst (shl_align mx ex ex'))) + snd (shl_align mx ex ex')
  = Z.pos (digits2_pos mx) + ex.
Proof.
  unfold shl_align. destruct (ex' - ex) as [|d|d] eqn:E; simpl fst; simpl snd; try lia.
  rewrite iter_xO_digits. lia.
Qed.

Lemma of_int_in_range (n : Z) :
  Z.abs n < 2 ^ 1023 -> exists x, of_int n = Ok x.
Proof.
  intros Hn. unfold of_int.
  assert (Hround : forall s p, Z.pos p < 2 ^ 1023 ->
            exists m e, binary_round prec emax s p 0 = S754_finite s m e).
  { intros s p Hp. unfold binary_round.
    pose proof (shl_align_exponent p 0 (fexp prec emax (Z.pos (digits2_pos p) + 0))) as Hez.
    pose proof (shl_align_digits p 0 (fexp prec emax (Z.pos (digits2_pos p) + 0))) as Hdg.
    destruct (shl_align p 0 _) as [mz ez]. cbn [fst snd] in Hez, Hdg.
    assert (Hlog : Z.log2 (Z.pos p) < 1023) by (apply Z.log2_lt_pow2; lia).
    pose proof (Zdigits2_log2 (Z.pos p) ltac:(lia)) as Hd. cbn [Zdigits2] in Hd.
    apply binary_round_aux_in_range; cbn [Zdigits2].
    - lia.
    - subst ez. unfold fexp, emin, prec, emax. lia.
    - lia.
    - lia. }
  destruct n as [|p|p]; simpl binary_normalize.
  - eexists; reflexivity.
  - destruct (Hround false p) as (m & e & ->); [lia|]. eexists; reflexivity.
  - destruct (Hround true p) as (m & e & ->); [lia|]. eexists; reflexivity.
Qed.

Lemma int_div_hundred_in_range (n : Z) :
  Z.abs n < 2 ^ 1023 -> exists amount, int_div_hundred n = Ok amount.
Proof.
  intros Hn. destruct (of_int_in_range n Hn) as [x Hx].
  unfold int_div_hundred. rewrite Hx. simpl. eexists; reflexivity.
Qed.

(** *** Amounts below [2^52] minor units are exact to the cent *)

Lemma round_half_even_div_near (num den c : Z) :
  0 < den -> 2 * Z.abs (num - c * den) < den -> round_half_even_div num den = c.
Proof.
  intros Hden Hnear. unfold round_half_even_div.
  destruct (Z_le_gt_dec (c * den) num) as [Hle|Hgt].
  - assert (Hq : num / den = c) by (symmetry; apply (Z.div_unique num den c (num - c * den)); lia).
    assert (Hr : num mod den = num - c * den)
      by (symmetry; apply (Z.mod_unique num den c (num - c * den)); lia).
    rewrite Hq, Hr.
    destruct (Z.compare_spec (2 * (num - c * den)) den); try lia.
  - assert (Hq : num / den = c - 1)
      by (symmetry; apply (Z.div_unique num den (c - 1) (num - (c - 1) * den)); lia).
    assert (Hr : num mod den = num - (c - 1) * den)
      by (symmetry; apply (Z.mod_unique num den (c - 1) (num - (c - 1) * den)); lia).
    rewrite Hq, Hr.
    destruct (Z.compare_spec (2 * (num - (c - 1) * den)) den); try lia.
Qed.

(** Rounding a quotient [q] with remainder [r] out of [D] to the nearest. *)
Lemma round_with_remainder (q r D : Z) :
  Z.even D = true -> 0 <= r < D ->
  2 * Z.abs (round_nearest_even q (new_location D r) * D - (q * D + r)) <= D.
Proof.
  intros HD Hr. unfold new_location. rewrite HD. unfold new_location_even.
  destruct (Z.eqb_spec r 0) as [->|Hr0]; cbn [round_nearest_even]; [lia|].
  destruct (Z.compare_spec (2 * r) D); cbn [round_nearest_even]; try lia.
  destruct (Z.even q); lia.
Qed.

(** The same after one more bit of the quotient has been shifted out. *)
Lemma round_after_shift (q r D : Z) :
  Z.even D = true -> 0 <= r < D -> 0 < q ->
  let mrs := shr_1 (shr_record_of_loc q (new_location D r)) in
  let m := round_nearest_even (shr_m mrs) (loc_of_shr_record mrs) in
  shr_m mrs = q / 2 /\ 2 * Z.abs (2 * m * D - (q * D + r)) <= 2 * D.
Proof.
  intros HD Hr Hq. cbn zeta. split.
  { rewrite shr_1_m; destruct (new_location D r) as [|[]]; cbn [shr_record_of_loc shr_m]; lia. }
  unfold new_location. rewrite HD. unfold new_location_even.
  destruct q as [|q|q]; try lia.
  destruct (Z.eqb_spec r 0) as [->|Hr0].
  - destruct q as [h|h|];
      cbn [shr_record_of_loc shr_1 orb shr_m loc_of_shr_record round_nearest_even];
      try match goal with |- context [Z.even ?x] => destruct (Z.even x) end; lia.
  - destruct (2 * r ?= D); destruct q as [h|h|];
      cbn [shr_record_of_loc shr_1 orb shr_m loc_of_shr_record round_nearest_even];
      try match goal with |- context [Z.even ?x] => destruct (Z.even x) end; lia.
Qed.

Lemma Zdigits2_53 (m : Z) : 2 ^ 52 <= m < 2 ^ 53 -> Zdigits2 m = 53.
Proof.
  intros Hm. rewrite Zdigits2_log2 by lia.
  rewrite (Z.log2_unique m 52); lia.
Qed.

Lemma Zdigits2_54 (m : Z) : 2 ^ 53 <= m < 2 ^ 54 -> Zdigits2 m = 54.
Proof.
  intros Hm. rewrite Zdigits2_log2 by lia.
  rewrite (Z.log2_unique m 53); lia.
Qed.

Lemma loc_of_shr_record_of_loc (m : Z) (l : location) :
  loc_of_shr_record (shr_record_of_loc m l) = l.
Proof. destruct l as [|[]]; reflexivity. Qed.

Lemma shr_m_of_loc (m : Z) (l : location) : shr_m (shr_record_of_loc m l) = m.
Proof. destruct l as [|[]]; reflexivity. Qed.

Lemma shr_fexp_53 (m e : Z) (l : location) :
  2 ^ 52 <= m < 2 ^ 53 -> -1074 <= e ->
  shr_fexp prec emax m e l = (shr_record_of_loc m l, e).
Proof.
  intros Hm He. unfold shr_fexp, shr. rewrite (Zdigits2_53 m Hm).
  replace (fexp prec emax (53 + e) - e) with 0
    by (unfold fexp, emin, prec, emax; lia).
  reflexivity.
Qed.

Lemma shr_fexp_54 (m e : Z) (l : location) :
  2 ^ 53 <= m < 2 ^ 54 -> -1074 <= e ->
  shr_fexp prec emax m e l = (shr_1 (shr_record_of_loc m l), e + 1).
Proof.
  intros Hm He. unfold shr_fexp, shr. rewrite (Zdigits2_54 m Hm).
  replace (fexp prec emax (54 + e) - e) with 1
    by (unfold fexp, emin, prec, emax; lia).
  reflexivity.
Qed.

(** Rounding a 53-bit mantissa: no bit is shifted out. *)
Lemma binary_round_aux_53 (s : bool) (mx ex : Z) (l : location) :
  2 ^ 52 <= mx < 2 ^ 53 -> round_nearest_even mx l < 2 ^ 53 ->
  -1074 <= ex <= 971 ->
  binary_round_aux prec emax s mx ex l
  = S754_finite s (Z.to_pos (round_nearest_even mx l)) ex.
Proof.
  intros Hm Hr He. unfold binary_round_aux.
  rewrite shr_fexp_53 by lia.
  rewrite loc_of_shr_record_of_loc, shr_m_of_loc.
  pose proof (round_nearest_even_ge mx l) as Hge.
  rewrite shr_fexp_53 by lia.
  cbn [shr_record_of_loc shr_m].
  destruct (round_nearest_even mx l) as [|m|m]; try lia.
  unfold emax, prec. destruct (Z.leb_spec ex (1024 - 53)); [reflexivity|lia].
Qed.

(** Rounding a 54-bit mantissa: one bit is shifted out. *)
Lemma binary_round_aux_54 (s : bool) (mx ex : Z) (l : location) :
  2 ^ 53 <= mx < 2 ^ 54 ->
  let mrs := shr_1 (shr_record_of_loc mx l) in
  let m := round_nearest_even (shr_m mrs) (loc_of_shr_record mrs) in
  m < 2 ^ 53 -> -1074 <= ex <= 970 ->
  binary_round_aux prec emax s mx ex l = S754_finite s (Z.to_pos m) (ex + 1).
Proof.
  intros Hm mrs m Hr He. unfold binary_round_aux.
  rewrite shr_fexp_54 by lia. fold mrs. fold m.
  assert (Hhalf : shr_m mrs = mx / 2).
  { unfold mrs. rewrite shr_1_m; rewrite shr_m_of_loc; lia. }
  pose proof (round_nearest_even_ge (shr_m mrs) (loc_of_shr_record mrs)) as Hge.
  fold m in Hge. rewrite Hhalf in Hge.
  assert (Hlow : 2 ^ 52 <= mx / 2) by (apply Z.div_le_lower_bound; lia).
  rewrite shr_fexp_53 by lia.
  cbn [shr_record_of_loc shr_m].
  destruct m as [|m'|m']; try lia.
  unfold emax, prec. destruct (Z.leb_spec (ex + 1) (1024 - 53)); [reflexivity|lia].
Qed.

Lemma iter_xO_value (k p : positive) :
  Z.pos (Pos.iter xO p k) = Z.pos p * 2 ^ Z.pos k.
Proof.
  induction k as [|k IH] using Pos.peano_ind.
  - simpl. lia.
  - rewrite Pos.iter_succ, Pos2Z.inj_xO, IH, Pos2Z.inj_succ, Z.pow_succ_r by lia. lia.
Qed.

(** An int below [2^52] converts to a float exactly: the mantissa is the
    int shifted up to 53 bits. *)
Lemma binary_round_exact (s : bool) (p : positive) :
  Z.pos p < 2 ^ 52 ->
  exists mz k,
    binary_round prec emax s p 0 = S754_finite s mz (Z.neg k) /\
    Z.pos mz = Z.pos p * 2 ^ Z.pos k /\
    2 ^ 52 <= Z.pos mz < 2 ^ 53 /\ Z.pos k <= 52.
Proof.
  intros Hp. unfold binary_round.
  pose proof (Zdigits2_log2 (Z.pos p) ltac:(lia)) as Hd. cbn [Zdigits2] in Hd.
  assert (Hlog : Z.log2 (Z.pos p) < 52) by (apply Z.log2_lt_pow2; lia).
  pose proof (Z.log2_nonneg (Z.pos p)) as Hlog0.
  pose proof (Z.log2_spec (Z.pos p) ltac:(lia)) as [Hlo Hhi].
  unfold shl_align.
  destruct (fexp prec emax (Z.pos (digits2_pos p) + 0) - 0) as [|k|k] eqn:Ek;
    try (unfold fexp, emin, prec, emax in Ek; lia).
  assert (Hk : Z.pos k = 52 - Z.log2 (Z.pos p))
    by (unfold fexp, emin, prec, emax in Ek; lia).
  assert (Hez : fexp prec emax (Z.pos (digits2_pos p) + 0) = Z.neg k)
    by (unfold fexp, emin, prec, emax in *; lia).
  rewrite Hez.
  pose proof (iter_xO_value k p) as Hval.
  assert (Hmz : 2 ^ 52 <= Z.pos (Pos.iter xO p k) < 2 ^ 53).
  { rewrite Hval. replace 52 with (Z.log2 (Z.pos p) + Z.pos k) at 1 by lia.
    replace 53 with (Z.succ (Z.log2 (Z.pos p)) + Z.pos k) by lia.
    rewrite !Z.pow_add_r by lia.
    assert (0 < 2 ^ Z.pos k) by (apply Z.pow_pos_nonneg; lia). nia. }
  exists (Pos.iter xO p k), k. split; [|split; [exact Hval|split; [exact Hmz|lia]]].
  rewrite binary_round_aux_53; cbn [round_nearest_even]; try lia.
  reflexivity.
Qed.

(** Dividing an exactly converted int below [2^52] by [100.0] gives a float
    whose value, rounded to hundredths, is the int again. *)
Lemma div_hundred_cents (s : bool) (mz k : positive) (P : Z) :
  2 ^ 52 <= Z.pos mz < 2 ^ 53 -> Z.pos k <= 52 -> Z.pos mz = P * 2 ^ Z.pos k ->
  exists m e,
    div (S754_finite s mz (Z.neg k)) hundred = S754_finite s m e /\ hundredths m e = P.
Proof.
  intros Hmz Hk Hval. unfold div, hundred. cbn [SFdiv]. rewrite xorb_false_r.
  unfold SFdiv_core_binary. cbv zeta.
  rewrite (Zdigits2_53 (Z.pos mz) Hmz).
  change (Zdigits2 7036874417766400) with 53.
  replace (Z.min (fexp prec emax (53 + Z.neg k - (53 + -46))) (Z.neg k - -46))
    with (Z.neg (k + 7)) by (unfold fexp, emin, prec, emax; lia).
  replace (Z.neg k - -46 - Z.neg (k + 7)) with 53 by lia.
  cbv iota. rewrite Z.shiftl_mul_pow2 by lia.
  pose proof (Z_div_mod (Z.pos mz * 2 ^ 53) 7036874417766400 ltac:(lia)) as Hdiv.
  destruct (Z.div_eucl (Z.pos mz * 2 ^ 53) 7036874417766400) as [q r].
  destruct Hdiv as [Hq Hr].
  set (X := 2 ^ Z.pos k) in *.
  assert (HX : 2 <= X).
  { unfold X. change 2 with (2 ^ 1) at 1. apply Z.pow_le_mono_r; lia. }
  assert (HD : Z.even 7036874417766400 = true) by reflexivity.
  destruct (Z_lt_le_dec q (2 ^ 53)) as [Hsmall|Hlarge].
  - pose proof (round_with_remainder q r 7036874417766400 HD Hr) as Hround.
    pose proof (round_nearest_even_ge q (new_location 7036874417766400 r)) as Hge.
    set (m := round_nearest_even q (new_location 7036874417766400 r)) in *.
    rewrite binary_round_aux_53; fold m; try lia.
    exists (Z.to_pos m), (Z.neg (k + 7)). split; [reflexivity|].
    cbn [hundredths]. rewrite Z2Pos.id by lia.
    apply round_half_even_div_near.
    + apply Z.pow_pos_nonneg; lia.
    + rewrite Pos2Z.inj_add, Z.pow_add_r by lia. fold X.
      replace (P * (X * 2 ^ 7)) with (Z.pos mz * 2 ^ 7) by (rewrite Hval; ring).
      lia.
  - pose proof (round_after_shift q r 7036874417766400 HD Hr ltac:(lia)) as Hround.
    cbn zeta in Hround. destruct Hround as [Hhalf Hround].
    pose proof (round_nearest_even_ge
                  (shr_m (shr_1 (shr_record_of_loc q (new_location 7036874417766400 r))))
                  (loc_of_shr_record
                     (shr_1 (shr_record_of_loc q (new_location 7036874417766400 r)))))
      as Hge.
    rewrite Hhalf in Hge at 1.
    assert (Hlow : 2 ^ 52 <= q / 2) by (apply Z.div_le_lower_bound; lia).
    rewrite binary_round_aux_54; cbv zeta; try lia.
    set (m := round_nearest_even
                (shr_m (shr_1 (shr_record_of_loc q (new_location 7036874417766400 r))))
                (loc_of_shr_record
                   (shr_1 (shr_record_of_loc q (new_location 7036874417766400 r))))) in *.
    exists (Z.to_pos m), (Z.neg (k + 7) + 1). split; [reflexivity|].
    replace (Z.neg (k + 7) + 1) with (Z.neg (k + 6)) by lia.
    cbn [hundredths]. rewrite Z2Pos.id by lia.
    apply round_half_even_div_near.
    + apply Z.pow_pos_nonneg; lia.
    + rewrite Pos2Z.inj_add, Z.pow_add_r by lia. fold X.
      replace (P * (X * 2 ^ 6)) with (Z.pos mz * 2 ^ 6) by (rewrite Hval; ring).
      lia.
Qed.

End PyFloatFacts.

(** ** Dicts *)

Section DictFacts.

Context {V : Type}.
Implicit Types (d : dict V) (k : string) (v : V).

Lemma dict_get_set_same d k v : dict_get k (dict_set k v d) = Ok v.
Proof.
  induction d as [|[k' v'] d IH]; simpl.
  - rewrite String.eqb_refl. reflexivity.
  - destruct (String.eqb k' k) eqn:E; simpl; rewrite E; auto.
Qed.

Lemma dict_get_set_other d k k' v :
  k' <> k -> dict_get k (dict_set k' v d) = dict_get k d.
Proof.
  intros Hne. induction d as [|[k0 v0] d IH]; simpl.
  - destruct (String.eqb_spec k' k); [contradiction|reflexivity].
  - destruct (String.eqb_spec k0 k') as [->|Hk0]; simpl.
    + destruct (String.eqb_spec k' k); [contradiction|reflexivity].
    + destruct (String.eqb k0 k); auto.
Qed.

Lemma dict_keys_set d k v b :
  dict_get k d = Ok b -> dict_keys (dict_set k v d) = dict_keys d.
Proof.
  unfold dict_keys. induction d as [|[k' v'] d IH]; simpl; [discriminate|].
  destruct (String.eqb k' k) eqn:E; simpl; intros H; [reflexivity|].
  f_equal. auto.
Qed.

Lemma dict_get_found d k v : dict_get k d = Ok v -> In (k, v) d.
Proof.
  induction d as [|[k' v'] d IH]; simpl; [discriminate|].
  destruct (String.eqb_spec k' k) as [->|Hne]; intros H.
  - injection H as <-. left; reflexivity.
  - right; auto.
Qed.

Lemma dict_get_raises d k e :
  dict_get k d = Raise e -> e = KeyError k /\ ~ In k (dict_keys d).
Proof.
  unfold dict_keys. induction d as [|[k' v'] d IH]; simpl.
  - intros H. injection H as <-. auto.
  - destruct (String.eqb_spec k' k) as [->|Hne]; [discriminate|].
    intros H. destruct (IH H) as [-> Hnin]. split; [reflexivity|].
    intros [Heq|Hin]; auto.
Qed.

Lemma dict_get_key d k : In k (dict_keys d) -> exists v, dict_get k d = Ok v.
Proof.
  intros Hin. destruct (dict_get k d) as [v|e] eqn:E; [eauto|].
  apply dict_get_raises in E. tauto.
Qed.

Lemma dict_get_unique d k v :
  NoDup (dict_keys d) -> In (k, v) d -> dict_get k d = Ok v.
Proof.
  unfold dict_keys. induction d as [|[k' v'] d IH]; simpl; [tauto|].
  intros Hnd [Heq|Hin]; inversion Hnd as [|? ? Hnotin Hnd']; subst.
  - injection Heq as -> ->. rewrite String.eqb_refl. reflexivity.
  - destruct (String.eqb_spec k' k) as [->|Hne]; [|auto].
    exfalso. apply Hnotin. apply (in_map fst) in Hin. exact Hin.
Qed.

(** A dict is its keys and what the lookups give. *)
Lemma dict_listing d (f : string -> V) :
  NoDup (dict_keys d) ->
  (forall k, In k (dict_keys d) -> dict_get k d = Ok (f k)) ->
  d = map (fun k => (k, f k)) (dict_keys d).
Proof.
  unfold dict_keys. induction d as [|[k' v'] d IH]; simpl; [reflexivity|].
  intros Hnd Hget. inversion Hnd as [|? ? Hnotin Hnd']; subst.
  f_equal.
  - specialize (Hget k' (or_introl eq_refl)). rewrite String.eqb_refl in Hget.
    injection Hget as ->. reflexivity.
  - apply IH; [assumption|]. intros k Hk.
    specialize (Hget k (or_intror Hk)).
    destruct (String.eqb_spec k' k) as [->|Hne]; [contradiction|exact Hget].
Qed.

End DictFacts.


(** ** The Categorizer *)

Lemma bucket_names_listing :
  bucket_names
  = ["Eating Out"; "Groceries"; "Bills"; "Shopping"; "Entertainment";
     "Transport"; "Uncategorized"].
Proof. vm_compute. reflexivity. Qed.

Lemma init_categories_listing :
  init_categories = map (fun name => (name, [])) bucket_names.
Proof. vm_compute. reflexivity. Qed.

Lemma init_categories_keys : dict_keys init_categories = bucket_names.
Proof. vm_compute. reflexivity. Qed.

Lemma bucket_names_NoDup : NoDup bucket_names.
Proof.
  rewrite bucket_names_listing.
  repeat (constructor; [simpl; intuition discriminate|]). constructor.
Qed.

(** One iteration, case by case. *)
Lemma categorize_one_unfold (categories : buckets) (t : Transaction) :
  categorize_one categories t
  = match PyFloat.int_div_hundred (tx_amount t) with
    | Raise e => Raise e
    | Ok amount =>
        if is_expense amount then
          match dict_get (category_of t) categories with
          | Ok bucket =>
              Ok (dict_set (category_of t) (bucket ++ [expense_of t amount]) categories)
          | Raise e => Raise e
          end
        else Ok categories
    end.
Proof.
  unfold categorize_one, bind.
  destruct (PyFloat.int_div_hundred (tx_amount t)); reflexivity.
Qed.

Lemma is_expense_debit (t : Transaction) (amount : PyFloat.float) :
  PyFloat.int_div_hundred (tx_amount t) = Ok amount -> is_expense amount = is_debit t.
Proof. apply PyFloatFacts.int_div_hundred_ltb_zero. Qed.

Lemma magnitude_stored (t : Transaction) (amount : PyFloat.float) :
  PyFloat.int_div_hundred (tx_amount t) = Ok amount ->
  ex_amount (expense_of t amount) = magnitude (tx_amount t).
Proof.
  unfold PyFloat.int_div_hundred, PyFloat.of_int, magnitude, bind. simpl ex_amount.
  destruct (binary_normalize PyFloat.prec PyFloat.emax (tx_amount t) 0 false);
    intros H; try discriminate; injection H as <-; reflexivity.
Qed.

Ltac one_iteration H :=
  rewrite categorize_one_unfold in H;
  let amount := fresh "amount" in
  let Hamount := fresh "Hamount" in
  let Hexp := fresh "Hexp" in
  let bucket := fresh "bucket" in
  let Hbucket := fresh "Hbucket" in
  destruct (PyFloat.int_div_hundred (tx_amount _)) as [amount|] eqn:Hamount;
  [destruct (is_expense amount) eqn:Hexp;
   [destruct (dict_get (category_of _) _) as [bucket|] eqn:Hbucket|]|];
  try discriminate H.

Section Loop.

Implicit Types (categories : buckets) (transactions : list Transaction).

Lemma for_each_cons categories t transactions :
  for_each categorize_one (t :: transactions) categories
  = match categorize_one categories t with
    | Ok categories' => for_each categorize_one transactions categories'
    | Raise e => Raise e
    end.
Proof. reflexivity. Qed.

Lemma loop_keeps_keys transactions : forall categories categories',
  for_each categorize_one transactions categories = Ok categories' ->
  dict_keys categories' = dict_keys categories.
Proof.
  induction transactions as [|t transactions IH]; intros categories categories' H.
  - injection H as <-. reflexivity.
  - rewrite for_each_cons in H.
    destruct (categorize_one categories t) as [c1|] eqn:Hone; [|discriminate].
    rewrite (IH _ _ H). one_iteration Hone; injection Hone as <-.
    + eapply dict_keys_set; eassumption.
    + reflexivity.
Qed.

Lemma loop_fills_bucket transactions : forall categories categories' name bucket,
  for_each categorize_one transactions categories = Ok categories' ->
  dict_get name categories = Ok bucket ->
  dict_get name categories' = Ok (bucket ++ entries_for name transactions).
Proof.
  induction transactions as [|t transactions IH];
    intros categories categories' name bucket H Hget.
  - injection H as <-. simpl. rewrite app_nil_r. exact Hget.
  - rewrite for_each_cons in H.
    destruct (categorize_one categories t) as [c1|] eqn:Hone; [|discriminate].
    unfold entries_for. simpl flat_map. fold (entries_for name transactions).
    one_iteration Hone; injection Hone as <-; simpl andb.
    + destruct (String.eqb_spec (category_of t) name) as [Heq|Hne].
      * rewrite Heq in *. rewrite Hget in Hbucket. injection Hbucket as <-.
        rewrite app_assoc. apply (IH _ _ _ _ H). apply dict_get_set_same.
      * simpl. apply (IH _ _ _ _ H).
        rewrite dict_get_set_other by assumption. exact Hget.
    + simpl. apply (IH _ _ _ _ H). exact Hget.
Qed.


Lemma loop_converts transactions : forall categories categories',
  for_each categorize_one transactions categories = Ok categories' ->
  Forall (fun t => exists amount, PyFloat.int_div_hundred (tx_amount t) = Ok amount)
         transactions.
Proof.
  induction transactions as [|t transactions IH]; intros categories categories' H.
  - constructor.
  - rewrite for_each_cons in H.
    destruct (categorize_one categories t) as [c1|] eqn:Hone; [|discriminate].
    constructor; [|eapply IH; eassumption].
    one_iteration Hone; eauto.
Qed.


End Loop.

Lemma entries_for_origin (name : string) (transactions : list Transaction) (e : Expense) :
  In e (entries_for name transactions) ->
  exists t amount,
    In t transactions /\ PyFloat.int_div_hundred (tx_amount t) = Ok amount /\
    is_expense amount = true /\ category_of t = name /\ e = expense_of t amount.
Proof.
  unfold entries_for. rewrite in_flat_map. intros (t & Hin & He).
  destruct (PyFloat.int_div_hundred (tx_amount t)) as [amount|] eqn:Ha; [|contradiction].
  destruct (is_expense amount) eqn:Hexp; simpl in He; [|contradiction].
  destruct (String.eqb_spec (category_of t) name) as [Hc|Hc]; [|contradiction].
  destruct He as [<-|[]]. exists t, amount. auto.
Qed.

(** What a successful call returns: the seven buckets in enumeration
    order, each with the entries of its debits in input order. *)
Lemma categorize_transactions_listing (transactions : list Transaction)
  (categories : buckets) :
  categorize_transactions transactions = Ok categories ->
  categories = map (fun name => (name, entries_for name transactions)) bucket_names.
Proof.
  intros H. unfold categorize_transactions in H.
  pose proof (loop_keeps_keys _ _ _ H) as Hkeys. rewrite init_categories_keys in Hkeys.
  rewrite <- Hkeys. apply dict_listing.
  - rewrite Hkeys. apply bucket_names_NoDup.
  - intros name Hin. rewrite Hkeys in Hin.
    change (entries_for name transactions) with ([] ++ entries_for name transactions).
    apply (loop_fills_bucket _ _ _ _ _ H).
    apply dict_get_unique.
    + rewrite init_categories_keys. apply bucket_names_NoDup.
    + rewrite init_categories_listing. apply in_map_iff. exists name. auto.
Qed.


(** ** The transition system of the Categorizer *)






(** ** The Report Builder *)

Lemma for_each_unfold {A S : Type} (body : S -> A -> result S) (x : A) (l : list A) (s : S) :
  for_each body (x :: l) s = bind (body s x) (for_each body l).
Proof. reflexivity. Qed.

Lemma collect_entries (bucket : list Expense) :
  forall descriptions amounts total,
    fold_left collect_entry bucket (descriptions, amounts, total)
    = (descriptions ++ map ex_description bucket,
       amounts ++ map (fun e => Number (ex_amount e)) bucket,
       fold_left (fun total e => PyFloat.add total (ex_amount e)) bucket total).
Proof.
  induction bucket as [|e bucket IH]; intros descriptions amounts total; simpl.
  - rewrite !app_nil_r. reflexivity.
  - rewrite IH, <- !app_assoc. reflexivity.
Qed.

Lemma collect_category_found (categories : buckets) (all_data : list column_data)
  (total : PyFloat.float) (name : string) (bucket : list Expense) :
  dict_get name categories = Ok bucket ->
  collect_category categories (all_data, total) name
  = Ok (all_data ++ [category_column name bucket],
        PyFloat.add total (bucket_total bucket)).
Proof.
  intros Hget. unfold collect_category. rewrite Hget. simpl bind.
  rewrite collect_entries. reflexivity.
Qed.

Lemma collect_categories (categories : buckets) : forall (entries : buckets) all_data total,
  (forall name bucket, In (name, bucket) entries -> dict_get name categories = Ok bucket) ->
  for_each (collect_category categories) (dict_keys entries) (all_data, total)
  = Ok (all_data ++ columns_of entries,
        fold_left (fun total entry => PyFloat.add total (bucket_total (snd entry)))
          entries total).
Proof.
  induction entries as [|[name bucket] entries IH]; intros all_data total Hget.
  - simpl. rewrite app_nil_r. reflexivity.
  - change (dict_keys ((name, bucket) :: entries)) with (name :: dict_keys entries).
    rewrite for_each_unfold.
    rewrite (collect_category_found _ _ _ _ bucket) by (apply Hget; left; reflexivity).
    simpl bind. rewrite IH by (intros; apply Hget; right; assumption).
    simpl. rewrite <- app_assoc. reflexivity.
Qed.

Lemma fold_left_max (l : list nat) : forall n,
  fold_left Nat.max l n = Nat.max n (fold_right Nat.max 0%nat l).
Proof.
  induction l as [|m l IH]; intros n; simpl.
  - lia.
  - rewrite IH. lia.
Qed.

Lemma column_lengths (categories : buckets) :
  fold_right Nat.max 0%nat
    (map (fun category_data => length (Description category_data)) (columns_of categories))
  = max_category_length categories.
Proof.
  induction categories as [|[name bucket] categories IH]; [reflexivity|].
  unfold columns_of, max_category_length in *.
  cbn [map fold_right fst snd Description category_column].
  rewrite IH, length_app, length_map. cbn [length]. f_equal. lia.
Qed.

Lemma py_max_columns (categories : buckets) :
  categories <> [] ->
  py_max (map (fun category_data => length (Description category_data))
            (columns_of categories))
  = Ok (max_category_length categories).
Proof.
  intros Hne. rewrite <- column_lengths.
  destruct categories as [|entry categories]; [contradiction|].
  simpl. rewrite fold_left_max. reflexivity.
Qed.

Lemma all_columns_length (names : list string) :
  length (all_columns names) = (2 * length names)%nat.
Proof. induction names as [|n names IH]; simpl; lia. Qed.

Lemma grid_row_length (all_data : list column_data) (width i : nat) :
  (2 * length all_data <= width)%nat -> length (grid_row all_data width i) = width.
Proof.
  intros Hw. unfold grid_row. rewrite length_app, repeat_length.
  assert (H : forall l : list column_data,
             length (flat_map
                       (fun category_data =>
                          [entry_or_blank Text (Description category_data) i;
                           entry_or_blank (fun c => c) (Amount category_data) i]) l)
             = (2 * length l)%nat).
  { induction l as [|c l IH]; simpl; lia. }
  rewrite H. lia.
Qed.

Lemma total_row_length (total : PyFloat.float) (width : nat) :
  (2 <= width)%nat -> length (total_row total width) = width.
Proof. intros Hw. unfold total_row. rewrite length_app, repeat_length. simpl. lia. Qed.

Lemma set_row_new (i : nat) (row : list cell) (rows : list (nat * list cell)) :
  (forall j r, In (j, r) rows -> j <> i) -> set_row i row rows = rows ++ [(i, row)].
Proof.
  induction rows as [|[j r] rows IH]; intros Hnew; simpl; [reflexivity|].
  destruct (Nat.eqb_spec j i) as [Heq|Hne].
  - exfalso. apply (Hnew j r); [left; reflexivity|assumption].
  - f_equal. apply IH. intros j' r' Hin. apply (Hnew j' r'). right; assumption.
Qed.

Lemma rows_loop (columns : list string) (row_of : nat -> list cell) :
  (forall i, length (row_of i) = length columns) ->
  forall n start rows,
    (forall j r, In (j, r) rows -> (j < start)%nat) ->
    for_each (fun df i => loc_set df i (row_of i)) (seq start n)
      {| df_columns := columns; df_rows := rows |}
    = Ok {| df_columns := columns;
            df_rows := rows ++ map (fun i => (i, row_of i)) (seq start n) |}.
Proof.
  intros Hlen. induction n as [|n IH]; intros start rows Hlt; simpl.
  - rewrite app_nil_r. reflexivity.
  - unfold loc_set at 1. simpl df_columns. simpl df_rows.
    rewrite Hlen, Nat.eqb_refl. simpl bind.
    rewrite set_row_new by (intros j r Hin; apply Hlt in Hin; lia).
    rewrite IH.
    + rewrite <- app_assoc. reflexivity.
    + intros j r Hin. apply in_app_or in Hin. destruct Hin as [Hin|[Heq|[]]].
      * apply Hlt in Hin. lia.
      * injection Heq as <- _. lia.
Qed.

(** The grid that the Report Builder returns for a dict with at least one
    key. *)
Lemma build_report_grid (categories : buckets) :
  NoDup (dict_keys categories) -> categories <> [] ->
  let width := (2 * length categories)%nat in
  let max_rows := max_category_length categories in
  build_report categories
  = Ok {| df_columns := all_columns (dict_keys categories);
          df_rows :=
            map (fun i => (i, grid_row (columns_of categories) width i)) (seq 0 max_rows)
              ++ [(max_rows, total_row (grand_total categories) width)] |}.
Proof.
  intros Hnd Hne width max_rows. unfold build_report.
  rewrite (collect_categories categories categories)
    by (intros name bucket Hin; apply dict_get_unique; assumption).
  simpl bind. rewrite py_max_columns by assumption. simpl bind.
  assert (Hwidth : length (all_columns (dict_keys categories)) = width).
  { rewrite all_columns_length. unfold dict_keys. rewrite length_map. reflexivity. }
  rewrite Hwidth.
  rewrite (rows_loop _ (fun i => grid_row (columns_of categories) width i)).
  - simpl bind. unfold loc_set. simpl df_columns. simpl df_rows.
    assert (H2 : (2 <= width)%nat).
    { unfold width. destruct categories; [contradiction|simpl; lia]. }
    rewrite Hwidth, total_row_length, Nat.eqb_refl by exact H2.
    rewrite set_row_new; [reflexivity|].
    intros j r Hin. apply in_map_iff in Hin. destruct Hin as (i & Heq & Hin).
    injection Heq as <- _. apply in_seq in Hin. fold max_rows. lia.
  - intros i. rewrite Hwidth. apply grid_row_length.
    unfold columns_of. rewrite length_map. unfold width. lia.
  - intros j r [].
Qed.

(** ** Slices *)





(** ** More on the Categorizer's loop *)

Lemma loop_known_category (transactions : list Transaction) :
  forall categories categories' t amount,
    for_each categorize_one transactions categories = Ok categories' ->
    In t transactions ->
    PyFloat.int_div_hundred (tx_amount t) = Ok amount -> is_expense amount = true ->
    In (category_of t) (dict_keys categories).
Proof.
  induction transactions as [|t0 transactions IH];
    intros categories categories' t amount H Hin Ha He; [contradiction|].
  rewrite for_each_cons in H.
  destruct (categorize_one categories t0) as [c1|] eqn:Hone; [|discriminate].
  assert (Hkeys : dict_keys c1 = dict_keys categories).
  { apply (loop_keeps_keys [t0]). simpl. unfold bind. rewrite Hone. reflexivity. }
  destruct Hin as [->|Hin].
  - rewrite categorize_one_unfold, Ha, He in Hone.
    destruct (dict_get (category_of t) categories) as [b|] eqn:Hb; [|discriminate].
    apply dict_get_found in Hb. apply (in_map fst) in Hb. exact Hb.
  - rewrite <- Hkeys. eapply IH; eassumption.
Qed.


Lemma loop_ignores_credits (transactions : list Transaction) : forall categories categories',
  for_each categorize_one transactions categories = Ok categories' ->
  for_each categorize_one (filter is_debit transactions) categories = Ok categories'.
Proof.
  induction transactions as [|t transactions IH]; intros categories categories' H;
    [exact H|].
  rewrite for_each_cons in H.
  destruct (categorize_one categories t) as [c1|] eqn:Hone; [|discriminate].
  simpl filter. destruct (is_debit t) eqn:Hd.
  - rewrite for_each_cons, Hone. auto.
  - rewrite categorize_one_unfold in Hone.
    destruct (PyFloat.int_div_hundred (tx_amount t)) as [amount|] eqn:Ha; [|discriminate].
    rewrite (is_expense_debit t amount Ha), Hd in Hone. injection Hone as <-. auto.
Qed.


(** ** Loops and lookups, continued *)

Lemma bind_Ok {A B : Type} (a : A) (k : A -> result B) : bind (Ok a) k = k a.
Proof. reflexivity. Qed.

Lemma for_each_app {A S : Type} (body : S -> A -> result S) (l1 l2 : list A) : forall s,
  for_each body (l1 ++ l2) s = bind (for_each body l1 s) (for_each body l2).
Proof.
  induction l1 as [|x l1 IH]; intros s; simpl; [reflexivity|].
  destruct (body s x); simpl; auto.
Qed.

Lemma dict_get_missing {V : Type} (d : dict V) (k : string) :
  ~ In k (dict_keys d) -> dict_get k d = Raise (KeyError k).
Proof.
  intros Hnin. destruct (dict_get k d) as [v|e] eqn:E.
  - apply dict_get_found in E. apply (in_map fst) in E. contradiction.
  - apply dict_get_raises in E. destruct E as [-> _]. reflexivity.
Qed.

(** ** Debits to the cent *)

Lemma magnitude_cents (n : Z) :
  - 2 ^ 52 < n < 0 ->
  exists m e, magnitude n = S754_finite false m e /\ PyFloat.hundredths m e = - n.
Proof.
  intros Hn. unfold magnitude. destruct n as [|p|p]; try lia.
  cbn [binary_normalize].
  destruct (PyFloatFacts.binary_round_exact true p ltac:(lia)) as (mz & k & -> & Hval & Hmz & Hk).
  destruct (PyFloatFacts.div_hundred_cents true mz k (Z.pos p) Hmz Hk Hval) as (m & e & -> & Hc).
  exists m, e. split; [reflexivity|]. rewrite Hc. reflexivity.
Qed.

(** A debit above [-2^52] minor units is stored as a float that the
    currency format shows as the exact amount in major units. *)
Lemma magnitude_shown_exactly (n : Z) :
  - 2 ^ 52 < n < 0 ->
  PyFloat.cents (magnitude n) = - n /\
  PyFloat.format_2f (magnitude n) = major_units_text (- n).
Proof.
  intros Hn. destruct (magnitude_cents n Hn) as (m & e & -> & Hc).
  cbn [PyFloat.cents PyFloat.format_2f PyFloat.sign_text]. rewrite Hc. split; reflexivity.
Qed.



(** ** The scenarios of the specification *)

(** Scenario 1: one debit of 5.00 for eating out. *)
Example scenario_coffee_shop :
  categorize_transactions
    [{| tx_amount := -500; tx_description := Some "Coffee Shop";
        tx_category := Some "eating_out" |}]
  = Ok [("Eating Out",
         [{| ex_description := "Coffee Shop"; ex_amount := magnitude (-500) |}]);
        ("Groceries", []); ("Bills", []); ("Shopping", []); ("Entertainment", []);
        ("Transport", []); ("Uncategorized", [])]
  /\ PyFloat.format_2f (magnitude (-500)) = "5.00".
Proof. split; vm_compute; reflexivity. Qed.

(** Scenario 2: a positive amount enters no bucket, the grand total is 0.00. *)
Example scenario_salary :
  categorize_transactions
    [{| tx_amount := 1200; tx_description := Some "Salary"; tx_category := Some "income" |}]
  = Ok init_categories
  /\ PyFloat.format_2f (grand_total init_categories) = "0.00".
Proof. split; vm_compute; reflexivity. Qed.

(** ** The Categorizer, by its input *)

Lemma converts_int_div_hundred (n : Z) :
  converts n = true <-> exists amount, PyFloat.int_div_hundred n = Ok amount.
Proof.
  unfold converts, PyFloat.int_div_hundred, bind.
  destruct (PyFloat.of_int n); split; intros H; try reflexivity; try discriminate.
  - eexists; reflexivity.
  - destruct H as [a H]; discriminate.
Qed.

Lemma stored_expense_of (t : Transaction) (amount : PyFloat.float) :
  PyFloat.int_div_hundred (tx_amount t) = Ok amount ->
  expense_of t amount = stored_expense t.
Proof.
  intros Ha. unfold stored_expense. rewrite <- (magnitude_stored t amount Ha). reflexivity.
Qed.

Lemma entries_for_filter (name : string) (transactions : list Transaction) :
  Forall (fun t => converts (tx_amount t) = true) transactions ->
  entries_for name transactions = map stored_expense (filter (goes_to name) transactions).
Proof.
  induction 1 as [|t transactions Ht _ IH]; [reflexivity|].
  unfold entries_for. cbn [flat_map filter]. fold (entries_for name transactions).
  apply converts_int_div_hundred in Ht. destruct Ht as [amount Ha].
  rewrite Ha, IH, (is_expense_debit t amount Ha).
  change (is_debit t && (category_of t =? name)%string) with (goes_to name t).
  destruct (goes_to name t); [|reflexivity].
  cbn [map app]. rewrite (stored_expense_of t amount Ha). reflexivity.
Qed.

Lemma loop_converts_all (transactions : list Transaction) (categories categories' : buckets) :
  for_each categorize_one transactions categories = Ok categories' ->
  Forall (fun t => converts (tx_amount t) = true) transactions.
Proof.
  intros H. apply loop_converts in H. revert H. apply Forall_impl.
  intros t. apply converts_int_div_hundred.
Qed.

Lemma existsb_eqb_In (name : string) (names : list string) :
  existsb (String.eqb name) names = true <-> In name names.
Proof.
  rewrite existsb_exists. split.
  - intros (x & Hin & Heq). apply String.eqb_eq in Heq. subst. exact Hin.
  - intros Hin. exists name. split; [exact Hin|apply String.eqb_refl].
Qed.

(** The loop gets to its end exactly when every transaction passes. *)
Lemma loop_returns_iff (transactions : list Transaction) : forall categories,
  dict_keys categories = bucket_names ->
  (exists categories', for_each categorize_one transactions categories = Ok categories')
  <-> forallb passes transactions = true.
Proof.
  induction transactions as [|t transactions IH]; intros categories Hkeys.
  - split; [reflexivity|]. intros _. eexists; reflexivity.
  - rewrite for_each_cons, categorize_one_unfold. cbn [forallb]. unfold passes at 1.
    unfold converts. unfold PyFloat.int_div_hundred, bind.
    destruct (PyFloat.of_int (tx_amount t)) as [x|e] eqn:Hx.
    2: { cbn [andb]. split; [intros [c H]; discriminate|discriminate]. }
    assert (Ha : PyFloat.int_div_hundred (tx_amount t) = Ok (PyFloat.div x PyFloat.hundred)).
    { unfold PyFloat.int_div_hundred, bind. rewrite Hx. reflexivity. }
    rewrite (is_expense_debit t _ Ha). cbn [andb].
    destruct (is_debit t) eqn:Hd; cbn [negb orb].
    + destruct (dict_get (category_of t) categories) as [bucket|e] eqn:Hb.
      * assert (Hin : existsb (String.eqb (category_of t)) bucket_names = true).
        { apply existsb_eqb_In. rewrite <- Hkeys.
          apply dict_get_found in Hb. apply (in_map fst) in Hb. exact Hb. }
        rewrite Hin. cbn [andb]. apply IH.
        rewrite (dict_keys_set _ _ _ _ Hb). exact Hkeys.
      * apply dict_get_raises in Hb. destruct Hb as [_ Hnin].
        destruct (existsb (String.eqb (category_of t)) bucket_names) eqn:Hex.
        -- exfalso. apply Hnin. rewrite Hkeys. apply existsb_eqb_In. exact Hex.
        -- cbn [andb]. split; [intros [c H]; discriminate|discriminate].
    + apply IH. exact Hkeys.
Qed.

Lemma entries_for_app (name : string) (l1 l2 : list Transaction) :
  entries_for name (l1 ++ l2) = entries_for name l1 ++ entries_for name l2.
Proof. unfold entries_for. apply flat_map_app. Qed.

Lemma listing_lookup (f : string -> list Expense) (name : string) :
  In name bucket_names ->
  dict_get name (map (fun name => (name, f name)) bucket_names) = Ok (f name).
Proof.
  intros Hin. apply dict_get_unique.
  - unfold dict_keys. rewrite map_map. cbn [fst]. rewrite map_id. apply bucket_names_NoDup.
  - apply in_map_iff. exists name. auto.
Qed.

Lemma merge_listings (f g : string -> list Expense) :
  merge_buckets (map (fun name => (name, f name)) bucket_names)
                (map (fun name => (name, g name)) bucket_names)
  = map (fun name => (name, f name ++ g name)) bucket_names.
Proof.
  unfold merge_buckets. rewrite map_map. apply map_ext_in. intros name Hin. cbn [fst snd].
  unfold dict_get_default. rewrite (listing_lookup g name Hin). reflexivity.
Qed.

(** ** Formatting of category tags *)

Lemma title_from_cons (b : bool) (c : ascii) (s : string) :
  PyStr.title_from b (String c s)
  = String (title_char b c) (PyStr.title_from (is_cased c) s).
Proof.
  unfold title_char, is_cased. cbn [PyStr.title_from].
  destruct (PyStr.is_lower c); [reflexivity|].
  destruct (PyStr.is_upper c); reflexivity.
Qed.

Lemma replace_underscores (s : string) :
  PyStr.replace "_" " " s = PyStr.map_chars underscore_to_space s.
Proof. reflexivity. Qed.

Ltac all_chars c := destruct c as [[] [] [] [] [] [] [] []].

(** The formatted text, character by character: each character's image
    depends on it and on whether the character before it is a letter. *)
Lemma format_from (b : bool) (s : string) :
  forall f : ascii -> ascii,
    (forall b c, title_char b (underscore_to_space (f c)) = title_char b (underscore_to_space c)) ->
    (forall c, is_cased (underscore_to_space (f c)) = is_cased (underscore_to_space c)) ->
    PyStr.title_from b (PyStr.replace "_" " " (PyStr.map_chars f s))
    = PyStr.title_from b (PyStr.replace "_" " " s).
Proof.
  intros f Hchar Hcased. revert b.
  induction s as [|c s IH]; intros b; [reflexivity|].
  rewrite !replace_underscores in *. cbn [PyStr.map_chars].
  rewrite !title_from_cons, Hchar, Hcased, IH. reflexivity.
Qed.

Lemma format_category_map (f : ascii -> ascii) (s : string) :
  (forall b c, title_char b (underscore_to_space (f c)) = title_char b (underscore_to_space c)) ->
  (forall c, is_cased (underscore_to_space (f c)) = is_cased (underscore_to_space c)) ->
  format_category (PyStr.map_chars f s) = format_category s.
Proof. intros H1 H2. unfold format_category, PyStr.title. apply format_from; assumption. Qed.

Lemma format_from_again (s : string) : forall b,
  PyStr.title_from b (PyStr.replace "_" " " (PyStr.title_from b (PyStr.replace "_" " " s)))
  = PyStr.title_from b (PyStr.replace "_" " " s).
Proof.
  induction s as [|c s IH]; intros b; [reflexivity|].
  rewrite !replace_underscores in *. cbn [PyStr.map_chars].
  rewrite title_from_cons. cbn [PyStr.map_chars]. rewrite title_from_cons.
  assert (Hc : title_char b (underscore_to_space (title_char b (underscore_to_space c)))
               = title_char b (underscore_to_space c))
    by (destruct b; all_chars c; reflexivity).
  assert (Hf : is_cased (underscore_to_space (title_char b (underscore_to_space c)))
               = is_cased (underscore_to_space c))
    by (destruct b; all_chars c; reflexivity).
  rewrite Hc, Hf, IH. reflexivity.
Qed.

(** ** When the Categorizer returns, and what *)



Lemma categorize_returns_when_all_pass (transactions : list Transaction) :
  (exists categories, categorize_transactions transactions = Ok categories)
  <-> forallb passes transactions = true.
Proof. apply loop_returns_iff. apply init_categories_keys. Qed.

Lemma categorize_listing_filter (transactions : list Transaction) (categories : buckets) :
  categorize_transactions transactions = Ok categories ->
  categories
  = map (fun name => (name, map stored_expense (filter (goes_to name) transactions)))
        bucket_names.
Proof.
  intros H. rewrite (categorize_transactions_listing _ _ H). apply map_ext.
  intros name. f_equal. apply entries_for_filter. eapply loop_converts_all. exact H.
Qed.

(** The float stored for a debit is a positive number. *)
Lemma magnitude_is_positive (n : Z) :
  n < 0 -> converts n = true ->
  exists m e, magnitude n = S754_finite false m e \/ magnitude n = S754_infinity false.
Proof.
  intros Hn Hc. unfold converts in Hc.
  destruct (PyFloat.of_int n) as [x|] eqn:Hx; [|discriminate].
  destruct (PyFloatFacts.of_int_neg n x Hn Hx) as (m & e & -> & He).
  assert (Hnorm : binary_normalize PyFloat.prec PyFloat.emax n 0 false = S754_finite true m e).
  { unfold PyFloat.of_int in Hx.
    destruct (binary_normalize PyFloat.prec PyFloat.emax n 0 false);
      try discriminate; injection Hx as -> -> ->; reflexivity. }
  unfold magnitude. rewrite Hnorm. unfold PyFloat.div, PyFloat.hundred. cbn [SFdiv xorb].
  pose proof (PyFloatFacts.div_core_hundred m e He) as H.
  destruct (SFdiv_core_binary PyFloat.prec PyFloat.emax (Z.pos m) e 7036874417766400 (-46))
    as [[q e0] l]. destruct H as [Hq He0].
  destruct (PyFloatFacts.binary_round_aux_pos true q e0 l Hq He0)
    as [(m' & e' & -> & _)| ->].
  - exists m', e'. left; reflexivity.
  - exists 1%positive, 0. right; reflexivity.
Qed.

(** Ints of [2^1024] and more, in absolute value, are out of the range of a
    float. *)
Lemma of_int_overflow (n : Z) : 2 ^ 1024 <= Z.abs n -> PyFloat.of_int n = Raise OverflowError.
Proof.
  intros Hn. unfold PyFloat.of_int.
  assert (Hround : forall s p, 2 ^ 1024 <= Z.pos p ->
            binary_round PyFloat.prec PyFloat.emax s p 0 = S754_infinity s).
  { intros s p Hp. unfold binary_round.
    assert (Hlog : 1024 <= Z.log2 (Z.pos p)) by (apply Z.log2_le_pow2; lia).
    pose proof (PyFloatFacts.Zdigits2_log2 (Z.pos p) ltac:(lia)) as Hd. cbn [Zdigits2] in Hd.
    unfold shl_align.
    destruct (fexp PyFloat.prec PyFloat.emax (Z.pos (digits2_pos p) + 0) - 0) as [|k|k] eqn:Ek;
      try (unfold fexp, emin, PyFloat.prec, PyFloat.emax in Ek; lia).
    destruct (PyFloatFacts.binary_round_aux_pos s (Z.pos p) 0 loc_Exact)
      as [(m & e & Hfin & _)|Hinf];
      [lia|unfold emin, PyFloat.prec, PyFloat.emax; lia| |exact Hinf].
    exfalso. revert Hfin. unfold binary_round_aux.
    pose proof (PyFloatFacts.shr_fexp_exponent (Z.pos p) 0 loc_Exact) as E1.
    destruct (shr_fexp PyFloat.prec PyFloat.emax (Z.pos p) 0 loc_Exact) as [mrs' e'].
    cbn [snd] in E1.
    pose proof (PyFloatFacts.shr_fexp_exponent
                  (round_nearest_even (shr_m mrs') (loc_of_shr_record mrs')) e' loc_Exact) as E2.
    destruct (shr_fexp PyFloat.prec PyFloat.emax _ e' loc_Exact) as [mrs'' e''].
    cbn [snd] in E2. cbn [Zdigits2] in E1.
    assert (He'' : 972 <= e'').
    { unfold fexp, emin, PyFloat.prec, PyFloat.emax in *. lia. }
    destruct (shr_m mrs''); try discriminate.
    unfold PyFloat.emax, PyFloat.prec.
    destruct (Z.leb_spec e'' (1024 - 53)); [lia|discriminate]. }
  destruct n as [|p|p]; cbn [binary_normalize].
  - simpl in Hn. lia.
  - rewrite Hround by (simpl in Hn; lia). reflexivity.
  - rewrite Hround by (simpl in Hn; lia). reflexivity.
Qed.


(** ** The cells of the grid *)

Lemma nth_error_pairs {A B : Type} (f g : A -> B) (l : list A) : forall j,
  nth_error (flat_map (fun a => [f a; g a]) l) (2 * j) = option_map f (nth_error l j) /\
  nth_error (flat_map (fun a => [f a; g a]) l) (2 * j + 1) = option_map g (nth_error l j).
Proof.
  induction l as [|a l IH]; intros j.
  - cbn [flat_map]. rewrite !nth_error_nil. split; reflexivity.
  - destruct j as [|j].
    + split; reflexivity.
    + replace (2 * S j)%nat with (S (S (2 * j))) by lia.
      replace (S (S (2 * j)) + 1)%nat with (S (S (2 * j + 1))) by lia.
      cbn [flat_map app nth_error]. apply IH.
Qed.

Lemma column_entry (name : string) (bucket : list Expense) (i : nat) :
  (entry_or_blank Text (Description (category_column name bucket)) i,
   entry_or_blank (fun c => c) (Amount (category_column name bucket)) i)
  = category_cells name bucket i.
Proof.
  unfold entry_or_blank, category_cells, category_column. cbn [Description Amount].
  destruct (Nat.lt_ge_cases i (length bucket)) as [Hlt|Hge].
  - rewrite !nth_error_app1 by (rewrite length_map; exact Hlt).
    rewrite !nth_error_map.
    destruct (nth_error bucket i) as [e|] eqn:He; [reflexivity|].
    apply nth_error_None in He. lia.
  - rewrite !nth_error_app2 by (rewrite length_map; exact Hge).
    rewrite !length_map.
    assert (Hnone : nth_error bucket i = None) by (apply nth_error_None; exact Hge).
    rewrite Hnone.
    destruct (Nat.eqb_spec i (length bucket)) as [->|Hne].
    + rewrite Nat.sub_diag. reflexivity.
    + destruct (i - length bucket)%nat as [|k] eqn:Hk; [lia|].
      cbn [nth_error]. destruct k; reflexivity.
Qed.

(** The cells of category [j] in a row of the grid. *)
Lemma grid_row_cells (categories : buckets) (width i j : nat)
  (name : string) (bucket : list Expense) :
  nth_error categories j = Some (name, bucket) ->
  nth_error (grid_row (columns_of categories) width i) (2 * j)
  = Some (fst (category_cells name bucket i)) /\
  nth_error (grid_row (columns_of categories) width i) (2 * j + 1)
  = Some (snd (category_cells name bucket i)).
Proof.
  intros Hj. unfold grid_row.
  pose proof (nth_error_pairs
                (fun category_data => entry_or_blank Text (Description category_data) i)
                (fun category_data => entry_or_blank (fun c => c) (Amount category_data) i)
                (columns_of categories) j) as [H0 H1].
  assert (Hcol : nth_error (columns_of categories) j = Some (category_column name bucket)).
  { unfold columns_of. rewrite nth_error_map, Hj. reflexivity. }
  rewrite Hcol in H0, H1. cbn [option_map] in H0, H1.
  rewrite <- (column_entry name bucket i). cbn [fst snd].
  split.
  - rewrite nth_error_app1; [exact H0|]. apply nth_error_Some. rewrite H0. discriminate.
  - rewrite nth_error_app1; [exact H1|]. apply nth_error_Some. rewrite H1. discriminate.
Qed.

Lemma nth_error_rows (row_of : nat -> list cell) (n i : nat) (last : nat * list cell) :
  (i < n)%nat ->
  nth_error (map (fun i => (i, row_of i)) (seq 0 n) ++ [last]) i = Some (i, row_of i).
Proof.
  intros Hi. rewrite nth_error_app1 by (rewrite length_map, length_seq; exact Hi).
  rewrite nth_error_map.
  assert (Hs : nth_error (seq 0 n) i = Some i).
  { rewrite nth_error_nth' with (d := 0%nat) by (rewrite length_seq; exact Hi).
    rewrite seq_nth by exact Hi. reflexivity. }
  rewrite Hs. reflexivity.
Qed.

(** *** Sums of amounts are never negative *)

Lemma binary_round_aux_nonnegative (mx ex : Z) (l : location) :
  0 <= mx -> is_nonnegative (binary_round_aux PyFloat.prec PyFloat.emax false mx ex l) = true.
Proof.
  intros Hm. unfold binary_round_aux.
  pose proof (PyFloatFacts.shr_fexp_mantissa mx ex l Hm) as M1.
  pose proof (PyFloatFacts.shr_fexp_exponent mx ex l) as E1.
  destruct (shr_fexp PyFloat.prec PyFloat.emax mx ex l) as [mrs' e'].
  cbn [fst snd] in M1, E1.
  assert (H1 : 0 <= shr_m mrs').
  { rewrite M1. apply Z.div_pos; [exact Hm|]. apply Z.pow_pos_nonneg; lia. }
  clear M1.
  pose proof (PyFloatFacts.round_nearest_even_ge (shr_m mrs') (loc_of_shr_record mrs')) as Hge.
  set (mr := round_nearest_even (shr_m mrs') (loc_of_shr_record mrs')) in *.
  pose proof (PyFloatFacts.shr_fexp_mantissa mr e' loc_Exact ltac:(lia)) as M2.
  pose proof (PyFloatFacts.shr_fexp_exponent mr e' loc_Exact) as E2.
  destruct (shr_fexp PyFloat.prec PyFloat.emax mr e' loc_Exact) as [mrs'' e''].
  cbn [fst snd] in M2, E2.
  assert (H2 : 0 <= shr_m mrs'').
  { rewrite M2. apply Z.div_pos; [lia|]. apply Z.pow_pos_nonneg; lia. }
  destruct (shr_m mrs'') as [|m|m]; try lia; [reflexivity|].
  destruct (e'' <=? PyFloat.emax - PyFloat.prec); reflexivity.
Qed.

Lemma add_nonnegative (x y : PyFloat.float) :
  is_nonnegative x = true -> is_nonnegative y = true ->
  is_nonnegative (PyFloat.add x y) = true.
Proof.
  unfold PyFloat.add.
  destruct x as [[]|[]| |[] mx ex]; try discriminate;
    destruct y as [[]|[]| |[] my ey]; try discriminate; intros _ _; try reflexivity.
  cbn [SFadd cond_Zopp].
  destruct (shl_align mx ex (Z.min ex ey)) as [ax ?].
  destruct (shl_align my ey (Z.min ex ey)) as [ay ?]. cbn [fst].
  change (Z.pos ax + Z.pos ay) with (Z.pos (ax + ay)). cbn [binary_normalize].
  unfold binary_round. destruct (shl_align (ax + ay) (Z.min ex ey) _) as [mz ez].
  apply binary_round_aux_nonnegative. lia.
Qed.

(** ** Totals *)

Lemma categorize_keys (transactions : list Transaction) (categories : buckets) :
  categorize_transactions transactions = Ok categories ->
  dict_keys categories = bucket_names.
Proof.
  intros H. unfold categorize_transactions in H.
  rewrite (loop_keeps_keys _ _ _ H). apply init_categories_keys.
Qed.

Lemma bucket_total_nonnegative (bucket : list Expense) :
  Forall (fun e => is_nonnegative (ex_amount e) = true) bucket ->
  is_nonnegative (bucket_total bucket) = true.
Proof.
  unfold bucket_total. generalize PyFloat.zero (eq_refl : is_nonnegative PyFloat.zero = true).
  intros acc Hacc Hall. revert acc Hacc.
  induction Hall as [|e bucket He _ IH]; intros acc Hacc; [exact Hacc|].
  cbn [fold_left]. apply IH. apply add_nonnegative; assumption.
Qed.

Lemma grand_total_nonnegative (categories : buckets) :
  Forall (fun entry => is_nonnegative (bucket_total (snd entry)) = true) categories ->
  is_nonnegative (grand_total categories) = true.
Proof.
  unfold grand_total. generalize PyFloat.zero (eq_refl : is_nonnegative PyFloat.zero = true).
  intros acc Hacc Hall. revert acc Hacc.
  induction Hall as [|entry categories He _ IH]; intros acc Hacc; [exact Hacc|].
  cbn [fold_left]. apply IH. apply add_nonnegative; assumption.
Qed.

Lemma stored_amount_nonnegative (t : Transaction) :
  tx_amount t < 0 -> converts (tx_amount t) = true ->
  is_nonnegative (ex_amount (stored_expense t)) = true.
Proof.
  intros Hneg Hc. cbn [stored_expense ex_amount].
  destruct (magnitude_is_positive _ Hneg Hc) as (m & e & [-> | ->]); reflexivity.
Qed.

Lemma grand_total_listing (f : string -> list Expense) (names : list string) :
  forall acc,
    fold_left (fun total entry => PyFloat.add total (bucket_total (snd entry)))
      (map (fun name => (name, f name)) names) acc
    = fold_left (fun total name => PyFloat.add total (bucket_total (f name))) names acc.
Proof.
  induction names as [|name names IH]; intros acc; [reflexivity|].
  cbn [map fold_left snd]. apply IH.
Qed.

(** Adding empty buckets to a total that is a finite positive number or
    [0] leaves it as it is. *)
Lemma add_zero_r (x : PyFloat.float) :
  (x = PyFloat.zero \/ exists m e, x = S754_finite false m e) ->
  PyFloat.add x PyFloat.zero = x.
Proof. intros [->|(m & e & ->)]; reflexivity. Qed.

Lemma lone_bucket_total (t : Transaction) (name : string) :
  bucket_total (map stored_expense (filter (goes_to name) [t]))
  = if goes_to name t then PyFloat.add PyFloat.zero (magnitude (tx_amount t))
    else PyFloat.zero.
Proof. cbn [filter]. destruct (goes_to name t); reflexivity. Qed.

Lemma lone_debit_total (t : Transaction) (m : positive) (e : Z) (names : list string) :
  is_debit t = true -> magnitude (tx_amount t) = S754_finite false m e ->
  NoDup names ->
  (~ In (category_of t) names ->
   forall acc, (acc = PyFloat.zero \/ acc = S754_finite false m e) ->
     fold_left (fun total name =>
                  PyFloat.add total
                    (bucket_total (map stored_expense (filter (goes_to name) [t]))))
       names acc = acc) /\
  (In (category_of t) names ->
   fold_left (fun total name =>
                PyFloat.add total
                  (bucket_total (map stored_expense (filter (goes_to name) [t]))))
     names PyFloat.zero = S754_finite false m e).
Proof.
  intros Hdebit Hmag Hnd.
  assert (Hstep : forall name, goes_to name t = String.eqb (category_of t) name).
  { intros name. unfold goes_to. rewrite Hdebit. reflexivity. }
  induction Hnd as [|name names Hnotin Hnd [IHout IHin]].
  - split; [intros _ acc _; reflexivity|intros []].
  - split.
    + intros Hout acc Hacc. cbn [fold_left]. rewrite lone_bucket_total, Hstep.
      destruct (String.eqb_spec (category_of t) name) as [Heq|Hne].
      * exfalso. apply Hout. left. symmetry. exact Heq.
      * rewrite add_zero_r by (destruct Hacc; [left|right; eauto]; assumption).
        apply IHout; [|exact Hacc]. intros Hin. apply Hout. right. exact Hin.
    + intros Hin. cbn [fold_left]. rewrite lone_bucket_total, Hstep.
      destruct (String.eqb_spec (category_of t) name) as [Heq|Hne].
      * rewrite Hmag. cbn [PyFloat.add PyFloat.zero SFadd].
        apply IHout; [|right; reflexivity]. rewrite Heq. exact Hnotin.
      * change (PyFloat.add PyFloat.zero PyFloat.zero) with PyFloat.zero.
        apply IHin. destruct Hin as [Heq|Hin]; [|exact Hin]. symmetry in Heq. contradiction.
Qed.

(** ** The trace of [main] *)













(** * Properties of the specification *)




(** C2. A debit whose formatted category is none of the seven bucket names
    makes the call raise [KeyError] on that name: when the transactions
    before it went through, the lookup of its bucket misses and the run
    ends there. *)
Theorem unknown_category_debit_raises_KeyError
  (before after : list Transaction) (t : Transaction) (categories : buckets) :
  categorize_transactions before = Ok categories ->
  - 2 ^ 1023 < tx_amount t < 0 ->
  ~ In (category_of t) bucket_names ->
  categorize_transactions (before ++ t :: after) = Raise (KeyError (category_of t)).
Proof.
  intros Hbefore Hrange Hunknown. unfold categorize_transactions in *.
  rewrite for_each_app, Hbefore, bind_Ok, for_each_cons, categorize_one_unfold.
  destruct (PyFloatFacts.int_div_hundred_in_range (tx_amount t)) as [amount Ha]; [lia|].
  rewrite Ha, (is_expense_debit t amount Ha). unfold is_debit.
  destruct (Z.ltb_spec (tx_amount t) 0); [|lia].
  rewrite dict_get_missing; [reflexivity|].
  rewrite (loop_keeps_keys _ _ _ Hbefore), init_categories_keys. exact Hunknown.
Qed.

Lemma unknown_category_debit_raises_KeyError_witness :
  categorize_transactions coffee_and_tea
  = Ok (map (fun name => (name, entries_for name coffee_and_tea)) bucket_names) /\
  - 2 ^ 1023 < tx_amount holiday_debit < 0 /\
  ~ In (category_of holiday_debit) bucket_names /\
  categorize_transactions (coffee_and_tea ++ holiday_debit :: coffee_and_tea)
  = Raise (KeyError "Holidays").
Proof.
  assert (Hbefore : categorize_transactions coffee_and_tea
                    = Ok (map (fun name => (name, entries_for name coffee_and_tea))
                            bucket_names)) by (vm_compute; reflexivity).
  assert (Hrange : - 2 ^ 1023 < tx_amount holiday_debit < 0) by (vm_compute; split; reflexivity).
  assert (Hunknown : ~ In (category_of holiday_debit) bucket_names).
  { vm_compute. intuition discriminate. }
  split; [exact Hbefore|]. split; [exact Hrange|]. split; [exact Hunknown|].
  exact (unknown_category_debit_raises_KeyError coffee_and_tea coffee_and_tea holiday_debit
           _ Hbefore Hrange Hunknown).
Defined.

(** C3. In the dict returned by [categorize_transactions], every entry of
    every bucket comes from a transaction with a negative amount, and the
    transactions whose amount is zero or positive can be dropped from the
    input without changing any bucket. *)
Theorem non_negative_amounts_contribute_nothing
  (transactions : list Transaction) (categories : buckets) :
  categorize_transactions transactions = Ok categories ->
  (forall name bucket e,
      In (name, bucket) categories -> In e bucket ->
      exists t amount,
        In t transactions /\ tx_amount t < 0 /\
        PyFloat.int_div_hundred (tx_amount t) = Ok amount /\
        category_of t = name /\ e = expense_of t amount) /\
  categorize_transactions (filter is_debit transactions) = Ok categories.
Proof.
  intros H. split.
  - intros name bucket e Hbucket He.
    rewrite (categorize_transactions_listing _ _ H) in Hbucket.
    apply in_map_iff in Hbucket. destruct Hbucket as (name' & Heq & _).
    injection Heq as -> <-.
    destruct (entries_for_origin _ _ _ He) as (t & amount & Hin & Ha & Hexp & Hc & ->).
    exists t, amount. repeat split; auto.
    rewrite (is_expense_debit t amount Ha) in Hexp. unfold is_debit in Hexp. lia.
  - apply loop_ignores_credits. exact H.
Qed.

Lemma non_negative_amounts_contribute_nothing_witness :
  exists categories,
    categorize_transactions coffee_and_tea = Ok categories /\
    (forall name bucket e,
        In (name, bucket) categories -> In e bucket ->
        exists t amount,
          In t coffee_and_tea /\ tx_amount t < 0 /\
          PyFloat.int_div_hundred (tx_amount t) = Ok amount /\
          category_of t = name /\ e = expense_of t amount) /\
    categorize_transactions (filter is_debit coffee_and_tea) = Ok categories.
Proof.
  eexists. split; [vm_compute; reflexivity|].
  apply non_negative_amounts_contribute_nothing. vm_compute. reflexivity.
Defined.





(** The subtotal of a bucket starts from [0]; on the magnitude of a debit
    that first addition changes nothing, so the subtotal of two debits is
    the float sum of their two magnitudes. *)
Lemma zero_plus_magnitude (n : Z) :
  n < 0 -> PyFloat.add PyFloat.zero (magnitude n) = magnitude n.
Proof.
  intros Hn. unfold magnitude.
  destruct n as [|p|p]; try lia. cbn [binary_normalize].
  assert (Hx : exists x, PyFloat.of_int (Z.neg p) = Ok x
                         \/ binary_round PyFloat.prec PyFloat.emax true p 0
                            = S754_infinity true).
  { unfold PyFloat.of_int. cbn [binary_normalize].
    destruct (binary_round PyFloat.prec PyFloat.emax true p 0) as [s|s| |s m e] eqn:E;
      try (eexists; left; reflexivity).
    exists PyFloat.zero. right.
    pose proof (PyFloatFacts.binary_round_aux_sign true) as Hs.
    unfold binary_round in E.
    destruct (shl_align p 0 _) as [mz ez].
    specialize (Hs (Z.pos mz) ez loc_Exact). rewrite E in Hs. simpl in Hs. subst s.
    reflexivity. }
  destruct Hx as [x [Hx|Hx]].
  - destruct (PyFloatFacts.of_int_neg _ x Hn Hx) as (m & e & -> & He).
    unfold PyFloat.of_int in Hx. cbn [binary_normalize] in Hx.
    destruct (binary_round PyFloat.prec PyFloat.emax true p 0) as [s|s| |s m' e'];
      try discriminate; injection Hx as -> -> ->.
    unfold PyFloat.div, PyFloat.hundred. cbn [SFdiv].
    pose proof (PyFloatFacts.div_core_hundred m e He) as H.
    destruct (SFdiv_core_binary PyFloat.prec PyFloat.emax (Z.pos m) e 7036874417766400 (-46))
      as [[q e0] l]. destruct H as [Hq He0]. cbn [xorb].
    destruct (PyFloatFacts.binary_round_aux_pos true q e0 l Hq He0)
      as [(m' & e' & -> & _)| ->]; reflexivity.
  - rewrite Hx. reflexivity.
Qed.

(** Scenario 5 of the spec: two debits of one category, 5.00 and 2.50. *)
Example two_entries_then_subtotal :
  exists categories,
    categorize_transactions coffee_and_tea = Ok categories /\
    exists all_data total_expenditure,
      for_each (collect_category categories) (dict_keys categories) ([], PyFloat.zero)
      = Ok (all_data, total_expenditure) /\
      nth_error all_data 0
      = Some {| Description := ["Coffee Shop"; "Tea at the station"; "∑ Eating Out"];
                Amount := [Number (magnitude (-500)); Number (magnitude (-250));
                           Text "£7.50"] |} /\
      PyFloat.format_2f total_expenditure = "7.50".
Proof.
  eexists. split; [vm_compute; reflexivity|].
  do 2 eexists. split; [vm_compute; reflexivity|]. split; vm_compute; reflexivity.
Qed.



(** C7. On a response whose status is not 200, [fetch_transactions] prints
    the error line and returns the empty list, without raising; on a 200 it
    prints nothing and returns what the body holds under ["transactions"],
    the empty list when the body has no such field. *)
Theorem fetch_transactions_by_status (w : World) (account_id : string) :
  let response := http_get w MONZO_API_URL in
  (status_code response <> 200 ->
   fetch_transactions w account_id
   = ([EvPrint ("Error fetching transactions: "
                  +++ PyFloat.string_of_Z (status_code response))],
      Ok [])) /\
  (status_code response = 200 ->
   fetch_transactions w account_id
   = ([], Ok (dict_get_default "transactions" [] (json response))) /\
   (forall transactions,
       dict_get "transactions" (json response) = Ok transactions ->
       fetch_transactions w account_id = ([], Ok transactions)) /\
   (~ In "transactions" (dict_keys (json response)) ->
    fetch_transactions w account_id = ([], Ok []))).
Proof.
  cbn zeta. unfold fetch_transactions. split.
  - intros Hstatus. destruct (Z.eqb_spec (status_code (http_get w MONZO_API_URL)) 200);
      [contradiction|reflexivity].
  - intros Hstatus. rewrite Hstatus. simpl. unfold io_ret, dict_get_default.
    split; [reflexivity|]. split.
    + intros transactions ->. reflexivity.
    + intros Habsent. rewrite dict_get_missing by assumption. reflexivity.
Qed.

Lemma fetch_transactions_by_status_witness :
  status_code failing_response <> 200 /\
  fetch_transactions (world_of failing_response) "acc_0000"
  = ([EvPrint "Error fetching transactions: 401"], Ok []) /\
  status_code full_response = 200 /\
  fetch_transactions (world_of full_response) "acc_0000" = ([], Ok coffee_and_tea) /\
  status_code empty_response = 200 /\
  ~ In "transactions" (dict_keys (json empty_response)) /\
  fetch_transactions (world_of empty_response) "acc_0000" = ([], Ok []).
Proof.
  assert (H401 : status_code failing_response <> 200) by discriminate.
  assert (Habsent : ~ In "transactions" (dict_keys (json empty_response))).
  { simpl. intuition discriminate. }
  split; [exact H401|]. split.
  - exact (proj1 (fetch_transactions_by_status (world_of failing_response) "acc_0000") H401).
  - split; [reflexivity|]. split.
    + exact (proj1 (proj2 (proj2 (fetch_transactions_by_status (world_of full_response)
                                     "acc_0000") eq_refl)) coffee_and_tea eq_refl).
    + split; [reflexivity|]. split; [exact Habsent|].
      exact (proj2 (proj2 (proj2 (fetch_transactions_by_status (world_of empty_response)
                                     "acc_0000") eq_refl)) Habsent).
Defined.

(** C8. When [fetch_transactions] returns the empty list, [main] prints the
    authentication line, whatever the fetch printed, and "No transactions
    found.", then ends normally: the trace holds prints only, so no
    spreadsheet is written and no viewer is launched, and nothing is
    raised. *)
Theorem main_stops_without_transactions
  (builtin_sum : list PyFloat.float -> PyFloat.float) (w : World) :
  snd (fetch_transactions w (MONZO_ACCOUNT_ID w)) = Ok [] ->
  main builtin_sum w
  = (fst (test_authentication w)
       ++ fst (fetch_transactions w (MONZO_ACCOUNT_ID w))
       ++ [EvPrint "No transactions found."],
     Ok tt) /\
  forallb is_print (fst (main builtin_sum w)) = true.
Proof.
  unfold main, test_authentication, fetch_transactions.
  destruct (status_code (http_get w "https://api.monzo.com/ping/whoami") =? 200);
    destruct (status_code (http_get w MONZO_API_URL) =? 200);
    cbn [emit io_ret io_bind fst snd app]; intros H; try injection H as H;
    try rewrite H; cbn [emit io_ret io_bind fst snd app forallb is_print andb];
    split; reflexivity.
Qed.

Lemma main_stops_without_transactions_witness :
  snd (fetch_transactions (world_of failing_response)
         (MONZO_ACCOUNT_ID (world_of failing_response))) = Ok [] /\
  main plain_sum (world_of failing_response)
  = ([EvPrint "Authentication failed with status code: 401, response: {'code': 'unauthorized'}";
      EvPrint "Error fetching transactions: 401";
      EvPrint "No transactions found."],
     Ok tt) /\
  forallb is_print (fst (main plain_sum (world_of failing_response))) = true.
Proof.
  split; [reflexivity|].
  exact (main_stops_without_transactions plain_sum (world_of failing_response) eq_refl).
Defined.

(** The other terminal state, for comparison: with transactions the run
    goes on to the spreadsheet. *)
Example main_writes_with_transactions :
  existsb (fun ev => negb (is_print ev)) (fst (main plain_sum (world_of full_response)))
  = true.
Proof. vm_compute. reflexivity. Qed.






(** * Further properties of the code *)

(** ** [categorize_transactions] *)




(** X3. An amount of [2^1024] minor units or more, of either sign, stops
    the call with [OverflowError] when the transactions before it went
    through: the division by [100.0] comes before the test of the sign. *)
Theorem oversized_amount_raises_OverflowError
  (before after : list Transaction) (t : Transaction) (categories : buckets) :
  categorize_transactions before = Ok categories ->
  2 ^ 1024 <= Z.abs (tx_amount t) ->
  categorize_transactions (before ++ t :: after) = Raise OverflowError.
Proof.
  intros Hbefore Hbig. unfold categorize_transactions in *.
  rewrite for_each_app, Hbefore, bind_Ok, for_each_cons, categorize_one_unfold.
  unfold PyFloat.int_div_hundred. rewrite (of_int_overflow _ Hbig). reflexivity.
Qed.

Lemma oversized_amount_raises_OverflowError_witness :
  categorize_transactions coffee_and_tea
  = Ok (map (fun name => (name, entries_for name coffee_and_tea)) bucket_names) /\
  2 ^ 1024 <= Z.abs (tx_amount huge_credit) /\
  categorize_transactions (coffee_and_tea ++ huge_credit :: coffee_and_tea)
  = Raise OverflowError.
Proof.
  assert (Hbefore : categorize_transactions coffee_and_tea
                    = Ok (map (fun name => (name, entries_for name coffee_and_tea))
                            bucket_names)) by (vm_compute; reflexivity).
  assert (Hbig : 2 ^ 1024 <= Z.abs (tx_amount huge_credit)) by (vm_compute; discriminate).
  split; [exact Hbefore|]. split; [exact Hbig|].
  exact (oversized_amount_raises_OverflowError coffee_and_tea coffee_and_tea huge_credit
           _ Hbefore Hbig).
Defined.

(** X4. Categorizing two batches one after the other: the call on the
    concatenation returns exactly when the calls on both batches return, and
    then every bucket holds the entries of the first batch followed by those
    of the second. *)
Theorem categorize_concatenation (first second : list Transaction) (categories : buckets) :
  categorize_transactions (first ++ second) = Ok categories
  <-> exists earlier later,
        categorize_transactions first = Ok earlier /\
        categorize_transactions second = Ok later /\
        categories = merge_buckets earlier later.
Proof.
  split.
  - intros H.
    assert (Hall : forallb passes (first ++ second) = true)
      by (apply categorize_returns_when_all_pass; eauto).
    rewrite forallb_app, andb_true_iff in Hall. destruct Hall as [H1 H2].
    apply categorize_returns_when_all_pass in H1, H2.
    destruct H1 as [earlier H1]. destruct H2 as [later H2].
    exists earlier, later. split; [exact H1|]. split; [exact H2|].
    rewrite (categorize_transactions_listing _ _ H),
            (categorize_transactions_listing _ _ H1),
            (categorize_transactions_listing _ _ H2), merge_listings.
    apply map_ext. intros name. rewrite entries_for_app. reflexivity.
  - intros (earlier & later & H1 & H2 & ->).
    assert (Hall : forallb passes (first ++ second) = true).
    { rewrite forallb_app, andb_true_iff.
      split; apply categorize_returns_when_all_pass; eauto. }
    apply categorize_returns_when_all_pass in Hall. destruct Hall as [categories H].
    rewrite H. f_equal.
    rewrite (categorize_transactions_listing _ _ H),
            (categorize_transactions_listing _ _ H1),
            (categorize_transactions_listing _ _ H2), merge_listings.
    apply map_ext. intros name. rewrite entries_for_app. reflexivity.
Qed.

(** X5. The order of the input decides only the order inside the buckets:
    on a reordered input the call returns as well, with the same keys, and
    every bucket holds the same entries up to their order. *)
Theorem categorize_reordered_input
  (transactions reordered : list Transaction) (categories : buckets) :
  Permutation transactions reordered ->
  categorize_transactions transactions = Ok categories ->
  exists categories',
    categorize_transactions reordered = Ok categories' /\
    dict_keys categories' = dict_keys categories /\
    Forall2 (fun entry entry' => fst entry = fst entry' /\
                                 Permutation (snd entry) (snd entry'))
            categories categories'.
Proof.
  intros Hperm H.
  assert (Hall : forallb passes reordered = true).
  { apply forallb_forall. intros t Hin.
    assert (Hall : forallb passes transactions = true)
      by (apply categorize_returns_when_all_pass; eauto).
    rewrite forallb_forall in Hall. apply Hall.
    apply (Permutation_in _ (Permutation_sym Hperm)). exact Hin. }
  apply categorize_returns_when_all_pass in Hall. destruct Hall as [categories' H'].
  exists categories'. split; [exact H'|].
  rewrite (categorize_transactions_listing _ _ H), (categorize_transactions_listing _ _ H').
  split.
  - unfold dict_keys. rewrite !map_map. reflexivity.
  - induction bucket_names as [|name names IH]; constructor; [|exact IH].
    split; [reflexivity|]. cbn [snd]. unfold entries_for.
    apply Permutation_flat_map. exact Hperm.
Qed.

Lemma categorize_reordered_input_witness :
  Permutation coffee_and_tea (rev coffee_and_tea) /\
  exists categories',
    categorize_transactions (rev coffee_and_tea) = Ok categories' /\
    dict_keys categories' = bucket_names.
Proof.
  assert (Hperm : Permutation coffee_and_tea (rev coffee_and_tea)) by apply Permutation_rev.
  split; [exact Hperm|].
  destruct (categorize_reordered_input coffee_and_tea (rev coffee_and_tea)
              (map (fun name => (name, entries_for name coffee_and_tea)) bucket_names)
              Hperm)
    as (categories' & H' & Hkeys & _).
  - vm_compute. reflexivity.
  - exists categories'. split; [exact H'|]. rewrite Hkeys.
    unfold dict_keys. rewrite map_map. apply map_id.
Defined.

(** X6. Every amount stored in a bucket is a positive float: the test
    [0 < amount] holds for it, so it is no zero, no negative number and no
    NaN. *)
Theorem stored_amounts_are_positive
  (transactions : list Transaction) (categories : buckets)
  (name : string) (bucket : list Expense) (e : Expense) :
  categorize_transactions transactions = Ok categories ->
  In (name, bucket) categories -> In e bucket ->
  PyFloat.ltb PyFloat.zero (ex_amount e) = true.
Proof.
  intros H Hbucket He.
  pose proof (loop_converts_all _ _ _ H) as Hconv.
  rewrite (categorize_listing_filter _ _ H) in Hbucket.
  apply in_map_iff in Hbucket. destruct Hbucket as (name' & Heq & _).
  injection Heq as -> <-.
  apply in_map_iff in He. destruct He as (t & <- & Ht).
  apply filter_In in Ht. destruct Ht as [Hin Hgoes].
  unfold goes_to in Hgoes. apply andb_true_iff in Hgoes. destruct Hgoes as [Hdebit _].
  unfold is_debit in Hdebit. apply Z.ltb_lt in Hdebit.
  pose proof (proj1 (Forall_forall _ _) Hconv t Hin) as Hc. cbv beta in Hc.
  cbn [stored_expense ex_amount].
  destruct (magnitude_is_positive _ Hdebit Hc) as (m & x & [-> | ->]); reflexivity.
Qed.

Lemma stored_amounts_are_positive_witness :
  exists categories bucket e,
    categorize_transactions coffee_and_tea = Ok categories /\
    In ("Eating Out", bucket) categories /\ In e bucket /\
    PyFloat.ltb PyFloat.zero (ex_amount e) = true.
Proof.
  do 3 eexists.
  assert (H : categorize_transactions coffee_and_tea
              = Ok (map (fun name => (name, entries_for name coffee_and_tea)) bucket_names))
    by (vm_compute; reflexivity).
  split; [exact H|].
  assert (Hb : In ("Eating Out", entries_for "Eating Out" coffee_and_tea)
                  (map (fun name => (name, entries_for name coffee_and_tea)) bucket_names)).
  { apply in_map_iff. exists "Eating Out". split; [reflexivity|].
    rewrite bucket_names_listing. left; reflexivity. }
  assert (He : In (stored_expense {| tx_amount := -500; tx_description := Some "Coffee Shop";
                                     tx_category := Some "eating_out" |})
                  (entries_for "Eating Out" coffee_and_tea)).
  { vm_compute. left; reflexivity. }
  split; [exact Hb|]. split; [exact He|].
  exact (stored_amounts_are_positive _ _ _ _ _ H Hb He).
Defined.

(** X7. The bucket of a transaction does not depend on the case of its
    category tag nor on whether words are separated by underscores or by
    spaces, and a display name is its own tag: formatting lowered, raised,
    underscored or already formatted tags gives the same name. *)
Theorem category_matching_ignores_case_and_separators (category : string) :
  format_category (PyStr.map_chars PyStr.to_lower category) = format_category category /\
  format_category (PyStr.map_chars PyStr.to_upper category) = format_category category /\
  format_category (PyStr.replace " " "_" category) = format_category category /\
  format_category (format_category category) = format_category category.
Proof.
  split; [|split; [|split]].
  - apply format_category_map.
    + intros b c. destruct b; all_chars c; reflexivity.
    + intros c. all_chars c; reflexivity.
  - apply format_category_map.
    + intros b c. destruct b; all_chars c; reflexivity.
    + intros c. all_chars c; reflexivity.
  - unfold PyStr.replace at 1. apply format_category_map.
    + intros b c. destruct b; all_chars c; reflexivity.
    + intros c. all_chars c; reflexivity.
  - unfold format_category, PyStr.title. apply format_from_again.
Qed.

(** ** [save_to_excel]: the report grid *)

(** X8. The Report Builder needs at least one category: on the empty dict
    [max] is taken of an empty list and [ValueError] is raised; on any other
    dict a grid is returned, with two columns per key and one row more than
    the longest column. *)
Theorem report_needs_a_category (categories : buckets) :
  NoDup (dict_keys categories) ->
  (categories = [] -> build_report categories = Raise ValueError) /\
  (categories <> [] ->
   exists df,
     build_report categories = Ok df /\
     length (df_columns df) = (2 * length categories)%nat /\
     length (df_rows df) = (max_category_length categories + 1)%nat).
Proof.
  intros Hnd. split.
  - intros ->. reflexivity.
  - intros Hne. eexists. split; [apply build_report_grid; assumption|].
    cbn [df_columns df_rows]. split.
    + rewrite all_columns_length. unfold dict_keys. rewrite length_map. reflexivity.
    + rewrite length_app, length_map, length_seq. reflexivity.
Qed.

Lemma report_needs_a_category_witness :
  NoDup (dict_keys two_buckets) /\
  two_buckets <> [] /\
  exists df,
    build_report two_buckets = Ok df /\
    length (df_columns df) = 4%nat /\ length (df_rows df) = 3%nat.
Proof.
  assert (Hnd : NoDup (dict_keys two_buckets)).
  { repeat (constructor; [simpl; intuition discriminate|]). constructor. }
  assert (Hne : two_buckets <> []) by discriminate.
  split; [exact Hnd|]. split; [exact Hne|].
  exact (proj2 (report_needs_a_category two_buckets Hnd) Hne).
Defined.

(** X9. The layout of the grid: in row [i], the two cells of the [j]-th
    category are the description and the amount of entry [i] of its bucket;
    in the row right after the last entry they are the subtotal entry; in
    the rows below they are empty texts. *)
Theorem grid_cells (categories : buckets) (df : DataFrame) (i j : nat)
  (name : string) (bucket : list Expense) :
  NoDup (dict_keys categories) ->
  build_report categories = Ok df ->
  nth_error categories j = Some (name, bucket) ->
  (i < max_category_length categories)%nat ->
  exists row,
    nth_error (df_rows df) i = Some (i, row) /\
    nth_error row (2 * j) = Some (fst (category_cells name bucket i)) /\
    nth_error row (2 * j + 1) = Some (snd (category_cells name bucket i)).
Proof.
  intros Hnd Hdf Hj Hi.
  assert (Hne : categories <> []) by (intros ->; destruct j; discriminate).
  rewrite (build_report_grid categories Hnd Hne) in Hdf. injection Hdf as <-.
  cbn [df_rows]. eexists. split; [apply nth_error_rows; exact Hi|].
  apply grid_row_cells. exact Hj.
Qed.

Lemma grid_cells_witness :
  exists df row,
    build_report two_buckets = Ok df /\
    nth_error (df_rows df) 1 = Some (1%nat, row) /\
    nth_error row 0 = Some (Text "∑ Bills") /\
    nth_error row 1 = Some (Text "£5.00") /\
    nth_error row 2 = Some (Text "") /\
    nth_error row 3 = Some (Text "").
Proof.
  assert (Hnd : NoDup (dict_keys two_buckets)).
  { repeat (constructor; [simpl; intuition discriminate|]). constructor. }
  assert (Hne : two_buckets <> []) by discriminate.
  pose proof (build_report_grid two_buckets Hnd Hne) as Hdf. cbv zeta in Hdf.
  assert (Hi : (1 < max_category_length two_buckets)%nat) by (vm_compute; lia).
  destruct (grid_cells two_buckets _ 1 0 "Bills" [stored_expense holiday_debit]
              Hnd Hdf eq_refl Hi) as (row & Hrow & H0 & H1).
  destruct (grid_cells two_buckets _ 1 1 "Transport" [] Hnd Hdf eq_refl Hi)
    as (row' & Hrow' & H2 & H3).
  rewrite Hrow in Hrow'. injection Hrow' as <-.
  eexists. exists row. split; [exact Hdf|]. split; [exact Hrow|].
  split; [exact H0|]. split; [|split; [exact H2|exact H3]].
  vm_compute in H1. exact H1.
Defined.

(** X10. The header of the grid: the [j]-th category gives column [2j],
    named as the category, and column [2j+1], named by the pound sign, a
    space and the category. *)
Theorem grid_header (categories : buckets) (df : DataFrame) (j : nat)
  (name : string) (bucket : list Expense) :
  NoDup (dict_keys categories) ->
  build_report categories = Ok df ->
  nth_error categories j = Some (name, bucket) ->
  nth_error (df_columns df) (2 * j) = Some name /\
  nth_error (df_columns df) (2 * j + 1) = Some ("£ " +++ name).
Proof.
  intros Hnd Hdf Hj.
  assert (Hne : categories <> []) by (intros ->; destruct j; discriminate).
  rewrite (build_report_grid categories Hnd Hne) in Hdf. injection Hdf as <-.
  cbn [df_columns]. unfold all_columns.
  pose proof (nth_error_pairs (fun category : string => category)
                (fun category => "£ " +++ category) (dict_keys categories) j) as [H0 H1].
  assert (Hname : nth_error (dict_keys categories) j = Some name).
  { unfold dict_keys. rewrite nth_error_map, Hj. reflexivity. }
  rewrite Hname in H0, H1. split; assumption.
Qed.

Lemma grid_header_witness :
  exists df,
    build_report two_buckets = Ok df /\
    nth_error (df_columns df) 2 = Some "Transport" /\
    nth_error (df_columns df) 3 = Some "£ Transport".
Proof.
  assert (Hnd : NoDup (dict_keys two_buckets)).
  { repeat (constructor; [simpl; intuition discriminate|]). constructor. }
  assert (Hne : two_buckets <> []) by discriminate.
  pose proof (build_report_grid two_buckets Hnd Hne) as Hdf. cbv zeta in Hdf.
  eexists. split; [exact Hdf|].
  exact (grid_header two_buckets _ 1 "Transport" [] Hnd Hdf eq_refl).
Defined.

(** X11. No total of the report is ever negative: for the dict of a
    successful call, every bucket's subtotal and the grand total are zero,
    a positive number or [+inf], never a negative number and never a NaN. *)
Theorem report_totals_are_never_negative
  (transactions : list Transaction) (categories : buckets) :
  categorize_transactions transactions = Ok categories ->
  (forall name bucket,
      In (name, bucket) categories -> is_nonnegative (bucket_total bucket) = true) /\
  is_nonnegative (grand_total categories) = true.
Proof.
  intros H.
  pose proof (loop_converts_all _ _ _ H) as Hconv.
  assert (Hbuckets : forall name bucket,
             In (name, bucket) categories -> is_nonnegative (bucket_total bucket) = true).
  { intros name bucket Hin. rewrite (categorize_listing_filter _ _ H) in Hin.
    apply in_map_iff in Hin. destruct Hin as (name' & Heq & _). injection Heq as -> <-.
    apply bucket_total_nonnegative. apply Forall_forall. intros e He.
    apply in_map_iff in He. destruct He as (t & <- & Ht).
    apply filter_In in Ht. destruct Ht as [Hin Hgoes].
    unfold goes_to in Hgoes. apply andb_true_iff in Hgoes. destruct Hgoes as [Hdebit _].
    unfold is_debit in Hdebit. apply Z.ltb_lt in Hdebit.
    apply stored_amount_nonnegative; [exact Hdebit|].
    exact (proj1 (Forall_forall _ _) Hconv t Hin). }
  split; [exact Hbuckets|].
  apply grand_total_nonnegative. apply Forall_forall. intros [name bucket] Hin.
  cbn [snd]. eapply Hbuckets. exact Hin.
Qed.

Lemma report_totals_are_never_negative_witness :
  categorize_transactions coffee_and_tea
  = Ok (map (fun name => (name, entries_for name coffee_and_tea)) bucket_names) /\
  is_nonnegative
    (grand_total (map (fun name => (name, entries_for name coffee_and_tea)) bucket_names))
  = true.
Proof.
  assert (H : categorize_transactions coffee_and_tea
              = Ok (map (fun name => (name, entries_for name coffee_and_tea)) bucket_names))
    by (vm_compute; reflexivity).
  exact (conj H (proj2 (report_totals_are_never_negative coffee_and_tea _ H))).
Defined.

(** X12. A month with one debit is reported to the penny: when the only
    transaction is a debit above [-2^52] minor units, its bucket holds its
    one entry, and the subtotal of that bucket and the grand total are both
    shown as the exact amount in major units. *)
Theorem lone_debit_is_reported_to_the_penny (t : Transaction) (categories : buckets) :
  - 2 ^ 52 < tx_amount t < 0 ->
  categorize_transactions [t] = Ok categories ->
  dict_get (category_of t) categories = Ok [stored_expense t] /\
  pounds (bucket_total [stored_expense t]) = "£" +++ major_units_text (- tx_amount t) /\
  pounds (grand_total categories) = "£" +++ major_units_text (- tx_amount t).
Proof.
  intros Hrange H.
  assert (Hdebit : is_debit t = true) by (unfold is_debit; apply Z.ltb_lt; lia).
  destruct (magnitude_cents (tx_amount t) Hrange) as (m & e & Hmag & Hc).
  pose proof (proj2 (magnitude_shown_exactly (tx_amount t) Hrange)) as Hshown.
  pose proof (loop_converts_all _ _ _ H) as Hconv.
  assert (Hin : In (category_of t) bucket_names).
  { pose proof (proj1 (Forall_forall _ _) Hconv t (or_introl eq_refl)) as Hct.
    apply converts_int_div_hundred in Hct. destruct Hct as [amount Ha].
    rewrite <- init_categories_keys.
    apply (loop_known_category [t] _ _ t amount H); [left; reflexivity|exact Ha|].
    rewrite (is_expense_debit t amount Ha). exact Hdebit. }
  assert (Htotal : bucket_total [stored_expense t] = magnitude (tx_amount t)).
  { unfold bucket_total. cbn [fold_left stored_expense ex_amount].
    apply zero_plus_magnitude. lia. }
  rewrite (categorize_listing_filter _ _ H). split; [|split].
  - rewrite (listing_lookup
               (fun name => map stored_expense (filter (goes_to name) [t])) _ Hin).
    cbn [filter]. unfold goes_to. rewrite Hdebit, String.eqb_refl. reflexivity.
  - unfold pounds. rewrite Htotal, Hshown. reflexivity.
  - unfold pounds, grand_total. rewrite grand_total_listing.
    rewrite (proj2 (lone_debit_total t m e bucket_names Hdebit Hmag bucket_names_NoDup) Hin).
    rewrite <- Hmag, Hshown. reflexivity.
Qed.

Lemma lone_debit_is_reported_to_the_penny_witness :
  - 2 ^ 52 < tx_amount {| tx_amount := -1999; tx_description := None;
                          tx_category := Some "groceries" |} < 0 /\
  pounds (grand_total
            (map (fun name =>
                    (name, entries_for name
                             [{| tx_amount := -1999; tx_description := None;
                                 tx_category := Some "groceries" |}]))
                 bucket_names))
  = "£19.99".
Proof.
  assert (Hrange : - 2 ^ 52 < -1999 < 0) by lia.
  split; [exact Hrange|].
  refine (proj2 (proj2 (lone_debit_is_reported_to_the_penny
                          {| tx_amount := -1999; tx_description := None;
                             tx_category := Some "groceries" |} _ Hrange _))).
  vm_compute. reflexivity.
Defined.

(** X13. Whatever the Categorizer returns, the Report Builder accepts: it
    raises nothing and returns a grid of 14 columns; when the input holds no
    debit the grid has two rows, the subtotals and the grand total. *)
Theorem categorized_month_always_reports
  (transactions : list Transaction) (categories : buckets) :
  categorize_transactions transactions = Ok categories ->
  exists df,
    build_report categories = Ok df /\
    length (df_columns df) = 14%nat /\
    (2 <= length (df_rows df))%nat /\
    (filter is_debit transactions = [] -> length (df_rows df) = 2%nat).
Proof.
  intros H.
  pose proof (categorize_keys _ _ H) as Hkeys.
  assert (Hnd : NoDup (dict_keys categories)) by (rewrite Hkeys; apply bucket_names_NoDup).
  assert (Hne : categories <> []) by (intros ->; discriminate Hkeys).
  eexists. split; [apply build_report_grid; assumption|]. cbn [df_columns df_rows].
  rewrite all_columns_length, Hkeys, length_app, length_map, length_seq.
  split; [reflexivity|].
  assert (Hpos : (1 <= max_category_length categories)%nat).
  { destruct categories as [|[name bucket] categories]; [contradiction|].
    unfold max_category_length. cbn [fold_right snd]. lia. }
  split; [cbn [length]; lia|].
  intros Hnone. cbn [length].
  assert (Hmax : max_category_length categories = 1%nat); [|lia].
  rewrite (categorize_listing_filter _ _ H).
  assert (Hempty : forall name, filter (goes_to name) transactions = []).
  { intros name. clear -Hnone. induction transactions as [|t l IH]; [reflexivity|].
    cbn [filter] in *. unfold goes_to at 1. destruct (is_debit t); [discriminate|].
    cbn [andb]. auto. }
  unfold max_category_length. rewrite bucket_names_listing. cbn [map fold_right snd].
  rewrite !Hempty. reflexivity.
Qed.

Lemma categorized_month_always_reports_witness :
  categorize_transactions [] = Ok init_categories /\
  exists df,
    build_report init_categories = Ok df /\
    length (df_columns df) = 14%nat /\ length (df_rows df) = 2%nat.
Proof.
  assert (H : categorize_transactions [] = Ok init_categories) by reflexivity.
  split; [exact H|].
  destruct (categorized_month_always_reports [] init_categories H)
    as (df & Hdf & Hcols & _ & Hrows).
  exists df. split; [exact Hdf|]. split; [exact Hcols|]. apply Hrows. reflexivity.
Defined.

(** ** [main] *)







(** ** Defaults, the last row, the console summary *)

(** X17. The grid ends with the row of the grand total, once: after the
    rows of the entries and subtotals comes one row, labelled with their
    number, that reads "Total Expenditure", then the sum of the subtotals of
    all buckets in the currency format, then empty texts up to the width of
    the grid. *)
Theorem grid_ends_with_the_grand_total (categories : buckets) (df : DataFrame) :
  NoDup (dict_keys categories) ->
  build_report categories = Ok df ->
  exists rows,
    length rows = max_category_length categories /\
    df_rows df
    = rows ++ [(max_category_length categories,
                Text "Total Expenditure"
                  :: Text ("£" +++ PyFloat.format_2f (grand_total categories))
                  :: repeat (Text "") (2 * length categories - 2))].
Proof.
  intros Hnd Hdf.
  assert (Hne : categories <> []) by (intros ->; discriminate Hdf).
  rewrite (build_report_grid categories Hnd Hne) in Hdf. injection Hdf as <-.
  cbn [df_rows]. eexists. split; [|reflexivity].
  rewrite length_map, length_seq. reflexivity.
Qed.

Lemma grid_ends_with_the_grand_total_witness :
  exists df rows,
    build_report two_buckets = Ok df /\
    df_rows df
    = rows ++ [(2%nat, [Text "Total Expenditure"; Text "£5.00"; Text ""; Text ""])].
Proof.
  assert (Hnd : NoDup (dict_keys two_buckets)).
  { repeat (constructor; [simpl; intuition discriminate|]). constructor. }
  assert (Hne : two_buckets <> []) by discriminate.
  pose proof (build_report_grid two_buckets Hnd Hne) as Hdf. cbv zeta in Hdf.
  destruct (grid_ends_with_the_grand_total two_buckets _ Hnd Hdf) as (rows & _ & Hrows).
  eexists. exists rows. split; [exact Hdf|].
  rewrite Hrows. vm_compute. reflexivity.
Defined.




